(** * TourlyAI: robust LLM invocation and structured-output recovery

    A shallow embedding of [core/llm_utils.py] and of
    [RobustStructuredChain.invoke] in [core/llm_provider.py], with the
    properties of the retry / extraction / repair layer stated over it.

    Python strings are sequences of Unicode code points: [pystr] is a list of
    code points.  Python's [re], [json], [ast], pydantic, the LangChain parser
    and the backend are libraries outside the repository: the regular
    expressions are interpreted by a backtracking matcher that follows the
    semantics of [re] for the constructs the source uses, the others are
    fields of an environment record. *)

From Stdlib Require Import String Ascii NArith ZArith QArith Qminmax.
From Stdlib Require Import Qpower.
From Stdlib Require Import Bool List Lia.
Import ListNotations.
Close Scope Q_scope.

Set Implicit Arguments.
Set Warnings "-register-all".

(** ** Characters and strings *)

Module Py.

Definition char := N.
Definition pystr := list char.

Local Open Scope N_scope.

(** An ASCII literal as a Python string. *)
Definition u (s : string) : pystr :=
  List.map N_of_ascii (list_ascii_of_string s).

Definition dq : char := 34.      (* double quote *)
Definition sq : char := 39.      (* single quote *)
Definition bs : char := 92.      (* backslash *)
Definition nl : char := 10.      (* newline *)
Definition lbrace : char := 123.
Definition rbrace : char := 125.
Definition lbrack : char := 91.
Definition rbrack : char := 93.
Definition comma : char := 44.
Definition colon : char := 58.
Definition backtick : char := 96.
Definition underscore : char := 95.

(** A double-quoted token. *)
Definition quoted (s : pystr) : pystr := dq :: s ++ [dq].

Fixpoint str_eqb (a b : pystr) : bool :=
  match a, b with
  | [], [] => true
  | x :: a', y :: b' => (x =? y) && str_eqb a' b'
  | _, _ => false
  end.

Definition in_range (lo hi c : char) : bool := (lo <=? c) && (c <=? hi).

(** [Py_UNICODE_ISSPACE]: the code points [str.strip()] removes and [\s]
    matches on [str] patterns. *)
Definition isspace (c : char) : bool :=
  in_range 9 13 c || in_range 28 32 c || (c =? 133) || (c =? 160)
  || (c =? 5760) || in_range 8192 8202 c || (c =? 8232) || (c =? 8233)
  || (c =? 8239) || (c =? 8287) || (c =? 12288).

Definition ascii_alnum (c : char) : bool :=
  in_range 48 57 c || in_range 65 90 c || in_range 97 122 c.

Fixpoint lstrip_by (p : char -> bool) (s : pystr) : pystr :=
  match s with
  | [] => []
  | c :: r => if p c then lstrip_by p r else s
  end.

Definition rstrip_by (p : char -> bool) (s : pystr) : pystr :=
  rev (lstrip_by p (rev s)).

(** [s.strip(chars)] for the set of characters accepted by [p]. *)
Definition strip_by (p : char -> bool) (s : pystr) : pystr :=
  rstrip_by p (lstrip_by p s).

(** [s.strip()] *)
Definition strip (s : pystr) : pystr := strip_by isspace s.

(** [s.find(c)] for a one-character needle; [None] stands for [-1]. *)
Fixpoint find (c : char) (s : pystr) : option nat :=
  match s with
  | [] => None
  | x :: r => if x =? c then Some O else option_map S (find c r)
  end.

(** [s.startswith(c)] for a one-character prefix. *)
Definition startswith (c : char) (s : pystr) : bool :=
  match s with
  | x :: _ => x =? c
  | [] => false
  end.

(** [s[a:b]] for [0 <= a], [0 <= b]. *)
Definition slice (a b : nat) (s : pystr) : pystr :=
  firstn (b - a) (skipn a s).

End Py.

Import Py.

(** ** Regular expressions

    The fragment of Python's [re] that the source uses, with the matcher
    written as a backtracking search in continuation-passing style: the
    alternatives are tried in the priority order of [re] (greedy repetition
    tries one more iteration first, lazy repetition tries to stop first), and
    the first complete match is the result. *)

Module Re.

Inductive regex : Type :=
| Chr (p : char -> bool)              (* a character or a character class *)
| Seq (a b : regex)
| Star (greedy : bool) (a : regex)    (* a* and a*? *)
| Group (i : nat) (a : regex)         (* capturing group number i *)
| Ahead (a : regex)                   (* (?=a) *)
| Behind (neg : bool) (p : char -> bool)   (* (?<=[p]) and (?<![p]) *)
| WordB (w : char -> bool)            (* \b, for the word characters w *)
| Eos.                                (* $ without MULTILINE *)

(** The position of the matcher in the subject: the characters before it
    (nearest first), the characters after it, and the groups captured. *)
Record mstate : Type := MState {
  before : pystr;
  after : pystr;
  caps : list (nat * pystr)
}.

Definition consumed (s0 s1 : mstate) : pystr :=
  firstn (length (after s0) - length (after s1)) (after s0).

Definition at_boundary (w : char -> bool) (st : mstate) : bool :=
  let prev := match before st with c :: _ => w c | [] => false end in
  let next := match after st with c :: _ => w c | [] => false end in
  xorb prev next.

Definition at_end (st : mstate) : bool :=
  match after st with
  | [] => true
  | [c] => N.eqb c nl
  | _ => false
  end.

Definition orelse {A} (x y : option A) : option A :=
  match x with Some _ => x | None => y end.

Fixpoint run (r : regex) (st : mstate) (k : mstate -> option mstate)
  : option mstate :=
  match r with
  | Chr p =>
      match after st with
      | c :: rest =>
          if p c then k (MState (c :: before st) rest (caps st)) else None
      | [] => None
      end
  | Seq a b => run a st (fun st' => run b st' k)
  | Star greedy a =>
      (fix loop (fuel : nat) (st : mstate) : option mstate :=
         match fuel with
         | O => k st
         | S fuel' =>
             let more :=
               run a st (fun st' =>
                 if Nat.ltb (length (after st')) (length (after st))
                 then loop fuel' st' else None) in
             if greedy then orelse more (k st) else orelse (k st) more
         end) (length (after st)) st
  | Group i a =>
      run a st (fun st' =>
        k (MState (before st') (after st') ((i, consumed st st') :: caps st')))
  | Ahead a =>
      match run a st Some with
      | Some _ => k st
      | None => None
      end
  | Behind neg p =>
      let seen := match before st with c :: _ => p c | [] => false end in
      if xorb neg seen then k st else None
  | WordB w => if at_boundary w st then k st else None
  | Eos => if at_end st then k st else None
  end.

(** One match attempt at the current position. *)
Definition match_here (r : regex) (bef aft : pystr) : option mstate :=
  run r (MState bef aft []) Some.

(** [re.search]: the leftmost match; the result is the text skipped before
    the match and the state at its end. *)
Fixpoint search (r : regex) (bef aft : pystr) : option (pystr * mstate) :=
  match match_here r bef aft with
  | Some st => Some ([], st)
  | None =>
      match aft with
      | [] => None
      | c :: rest =>
          match search r (c :: bef) rest with
          | Some (skipped, st) => Some (c :: skipped, st)
          | None => None
          end
      end
  end.

(** [match.group(i)] *)
Fixpoint group (i : nat) (cs : list (nat * pystr)) : pystr :=
  match cs with
  | [] => []
  | (j, s) :: rest => if Nat.eqb i j then s else group i rest
  end.

(** Replacement templates: literal text and group references. *)
Inductive rpart : Type :=
| Lit (s : pystr)
| Ref (i : nat).

Definition expand (t : list rpart) (cs : list (nat * pystr)) : pystr :=
  flat_map (fun p => match p with Lit s => s | Ref i => group i cs end) t.

(** [re.sub] for patterns whose matches are never empty (all those of the
    source): the non-overlapping matches are replaced from left to right,
    and each search resumes where the previous match ended, seeing the
    original text behind it. *)
Fixpoint sub_from (fuel : nat) (r : regex) (t : list rpart)
    (bef aft : pystr) : pystr :=
  match fuel with
  | O => aft
  | S fuel' =>
      match search r bef aft with
      | None => aft
      | Some (skipped, st) =>
          skipped ++ expand t (caps st)
            ++ sub_from fuel' r t (before st) (after st)
      end
  end.

Definition sub (r : regex) (t : list rpart) (s : pystr) : pystr :=
  sub_from (S (length s)) r t [] s.

(** Building blocks. *)
Definition just (c : char) : char -> bool := N.eqb c.
Definition one_of (cs : list char) : char -> bool :=
  fun c => existsb (N.eqb c) cs.
Definition none_of (cs : list char) : char -> bool :=
  fun c => negb (existsb (N.eqb c) cs).
Definition any : char -> bool := fun _ => true.

Fixpoint seqs (rs : list regex) (last : regex) : regex :=
  match rs with
  | [] => last
  | r :: rest => Seq r (seqs rest last)
  end.

(** A literal word followed by [last]. *)
Definition lit (s : pystr) (last : regex) : regex :=
  seqs (List.map (fun c => Chr (just c)) s) last.

(** A literal under [re.IGNORECASE]. *)
Definition lit_ci (classes : list (list char)) (last : regex) : regex :=
  seqs (List.map (fun cs => Chr (one_of cs)) classes) last.

End Re.

Import Re.

(** ** Python values, exceptions and the libraries outside the repository *)

(** The objects that [json.loads] and [ast.literal_eval] build, and the
    dictionaries passed as default values. *)
Inductive pyval : Type :=
| PyNone
| PyBool (b : bool)
| PyInt (z : Z)
| PyFloat (literal : pystr)
| PyStr (s : pystr)
| PyList (items : list pyval)
| PyDict (items : list (pyval * pyval)).

(** Truth value of an object, as tested by [if x:]. *)
Definition truthy (v : pyval) : bool :=
  match v with
  | PyNone => false
  | PyBool b => b
  | PyInt z => negb (Z.eqb z 0)
  | PyFloat _ => true
  | PyStr s => match s with [] => false | _ => true end
  | PyList l => match l with [] => false | _ => true end
  | PyDict d => match d with [] => false | _ => true end
  end.

(** Exception classes.  [JSONDecodeError] and pydantic's [ValidationError]
    are subclasses of [ValueError]; [OtherError] is any other subclass of
    [Exception], such as the errors of a backend client. *)
Inductive clase : Type :=
| ValueError
| JSONDecodeError
| ValidationError
| SyntaxError
| TypeError
| KeyError
| OtherError (name : pystr).

Record exn : Type := Exn { exn_clase : clase; exn_msg : pystr }.

Definition es_ValueError (e : exn) : bool :=
  match exn_clase e with
  | ValueError | JSONDecodeError | ValidationError => true
  | _ => false
  end.

Definition es_JSONDecodeError (e : exn) : bool :=
  match exn_clase e with JSONDecodeError => true | _ => false end.

Definition es_ValidationError (e : exn) : bool :=
  match exn_clase e with ValidationError => true | _ => false end.

Definition es_SyntaxError (e : exn) : bool :=
  match exn_clase e with SyntaxError => true | _ => false end.

(** A call either returns or raises. *)
Inductive result (A : Type) : Type :=
| Ok (a : A)
| Err (e : exn).

Arguments Ok {A} a.
Arguments Err {A} e.

(** What the repository takes from outside: the Unicode table behind [\w]
    for code points above ASCII, the two standard-library parsers, and the
    quota classifier [is_openai_quota_error] that [llm_provider] imports. *)
Record Biblioteca : Type := {
  unicode_alnum : char -> bool;
  json_loads : pystr -> result pyval;
  literal_eval : pystr -> result pyval;
  is_openai_quota_error : exn -> bool
}.

(** ** [llm_utils.extraer_json_de_respuesta] *)

(** [r'```json\s*([\s\S]*?)\s*```'] under [re.IGNORECASE]; the case folding
    of [s] also accepts U+017F. *)
Definition patron_json : regex :=
  lit (u "```")
    (lit_ci [[106; 74]; [115; 83; 383]; [111; 79]; [110; 78]]%N
       (seqs [Star true (Chr isspace);
              Group 1 (Star false (Chr any));
              Star true (Chr isspace)]
          (lit (u "``") (Chr (just backtick))))).

(** [r'```\s*([\s\S]*?)\s*```'] *)
Definition patron_bloque : regex :=
  lit (u "```")
    (seqs [Star true (Chr isspace);
           Group 1 (Star false (Chr any));
           Star true (Chr isspace)]
       (lit (u "``") (Chr (just backtick)))).

Definition patrones_markdown : list regex := [patron_json; patron_bloque].

(** The [for patron in patrones_markdown] loop: the first pattern whose
    first group, stripped, starts with a bracket decides. *)
Fixpoint buscar_markdown (patrones : list regex) (texto : pystr)
  : option pystr :=
  match patrones with
  | [] => None
  | patron :: resto =>
      match search patron [] texto with
      | Some (_, m) =>
          let json_str := strip (group 1 (caps m)) in
          if startswith lbrace json_str || startswith lbrack json_str
          then Some json_str
          else buscar_markdown resto texto
      | None => buscar_markdown resto texto
      end
  end.

(** The [for i in range(inicio, len(texto))] loop over the characters from
    [inicio] on; the result is [fin], with [None] for [-1]. *)
Fixpoint buscar_cierre (char_inicio char_fin : char) (resto : pystr)
    (i : nat) (nivel : Z) (en_string escape : bool) : option nat :=
  match resto with
  | [] => None
  | c :: r =>
      if escape then
        buscar_cierre char_inicio char_fin r (S i) nivel en_string false
      else if N.eqb c bs then
        buscar_cierre char_inicio char_fin r (S i) nivel en_string true
      else if N.eqb c dq then
        buscar_cierre char_inicio char_fin r (S i) nivel (negb en_string) false
      else if negb en_string then
        if N.eqb c char_inicio then
          buscar_cierre char_inicio char_fin r (S i) (nivel + 1) en_string false
        else if N.eqb c char_fin then
          if Z.eqb (nivel - 1) 0 then Some (S i)
          else
            buscar_cierre char_inicio char_fin r (S i) (nivel - 1)
              en_string false
        else buscar_cierre char_inicio char_fin r (S i) nivel en_string false
      else buscar_cierre char_inicio char_fin r (S i) nivel en_string false
  end.

(** Strategy 2: the first [{] or [[] and its matching close. *)
Definition extraer_directo (texto : pystr) : option pystr :=
  let inicio_obj := find lbrace texto in
  let inicio_arr := find lbrack texto in
  let elegido :=
    match inicio_obj, inicio_arr with
    | None, None => None
    | None, Some a => Some (a, lbrack, rbrack)
    | Some o, None => Some (o, lbrace, rbrace)
    | Some o, Some a =>
        if Nat.ltb o a then Some (o, lbrace, rbrace)
        else Some (a, lbrack, rbrack)
    end in
  match elegido with
  | None => None
  | Some (inicio, char_inicio, char_fin) =>
      match buscar_cierre char_inicio char_fin (skipn inicio texto)
              inicio 0 false false with
      | Some fin =>
          if Nat.ltb inicio fin then Some (slice inicio fin texto) else None
      | None => None
      end
  end.

Definition extraer_json_de_respuesta (texto : pystr) : option pystr :=
  match strip texto with
  | [] => None
  | texto' =>
      match buscar_markdown patrones_markdown texto' with
      | Some json_str => Some json_str
      | None => extraer_directo texto'
      end
  end.

(** ** [llm_utils.reparar_json] *)

Section Reparar.

Variable lib : Biblioteca.

(** [\w] on [str] patterns: alphanumeric or underscore. *)
Definition es_palabra (c : char) : bool :=
  if N.ltb c 128 then ascii_alnum c || N.eqb c underscore
  else unicode_alnum lib c.

(** U+FEFF, U+200B, U+200C, U+200D *)
Definition invisibles : list char := [65279; 8203; 8204; 8205]%N.

(** The pattern [(?<=[{,:\[])\s*'([^']*?)'\s*(?=[},:\]])] *)
Definition re_comillas_simples : regex :=
  seqs [Behind false (one_of [lbrace; comma; colon; lbrack]);
        Star true (Chr isspace);
        Chr (just sq);
        Group 1 (Star false (Chr (none_of [sq])));
        Chr (just sq);
        Star true (Chr isspace)]
    (Ahead (Chr (one_of [rbrace; comma; colon; rbrack]))).

(** [r',\s*([}\]])'] *)
Definition re_trailing_comma : regex :=
  seqs [Chr (just comma); Star true (Chr isspace)]
    (Group 1 (Chr (one_of [rbrace; rbrack]))).

(** [r'([{,])\s*(\w+)\s*:'] *)
Definition re_clave_sin_comillas : regex :=
  seqs [Group 1 (Chr (one_of [lbrace; comma]));
        Star true (Chr isspace);
        Group 2 (Seq (Chr es_palabra) (Star true (Chr es_palabra)));
        Star true (Chr isspace)]
    (Chr (just colon)).

(** [r'\bTrue\b'], [r'\bFalse\b'], [r'\bNone\b'] *)
Definition re_literal (palabra : pystr) : regex :=
  Seq (WordB es_palabra) (lit palabra (WordB es_palabra)).

(** The pattern [(?<!\\)\n(?=[^D]*D(?:[^D]*D[^D]*D)*[^D]*$)], where [D]
    stands for the double quote: a newline not preceded by a backslash and
    followed by an odd number of double quotes. *)
Definition re_newline_en_string : regex :=
  let no_dq := Star true (Chr (none_of [dq])) in
  seqs [Behind true (just bs); Chr (just nl)]
    (Ahead
       (seqs [no_dq; Chr (just dq);
              Star true (seqs [no_dq; Chr (just dq); no_dq] (Chr (just dq)));
              no_dq]
          Eos)).

Definition reparar_json (json_str : pystr) : pystr :=
  match json_str with
  | [] => json_str
  | _ =>
      let resultado := json_str in
      let resultado := strip_by (one_of invisibles) resultado in
      let resultado :=
        sub re_comillas_simples [Lit [dq]; Ref 1; Lit [dq]] resultado in
      let resultado := sub re_trailing_comma [Ref 1] resultado in
      let resultado :=
        sub re_clave_sin_comillas
          [Ref 1; Lit [dq]; Ref 2; Lit [dq]; Lit [colon]] resultado in
      let resultado := sub (re_literal (u "True")) [Lit (u "true")] resultado in
      let resultado :=
        sub (re_literal (u "False")) [Lit (u "false")] resultado in
      let resultado := sub (re_literal (u "None")) [Lit (u "null")] resultado in
      let resultado :=
        sub re_newline_en_string [Lit [bs; 110%N]] resultado in
      resultado
  end.

End Reparar.

(** ** [llm_utils.parsear_json_seguro] and [parsear_pydantic_seguro] *)

(** [try: r except <atrapa>: pass], followed by [resto]. *)
Definition intentar {A} (r : result A) (atrapa : exn -> bool)
    (resto : result A) : result A :=
  match r with
  | Ok a => Ok a
  | Err e => if atrapa e then resto else Err e
  end.

Section Parsear.

Variable lib : Biblioteca.

(** The result is a Python object; [PyNone] is the function's [None]. *)
Definition parsear_json_seguro (texto : pystr) : result pyval :=
  match texto with
  | [] => Ok PyNone
  | _ =>
      match extraer_json_de_respuesta texto with
      | None | Some [] => Ok PyNone
      | Some json_str =>
          intentar (json_loads lib json_str) es_JSONDecodeError
            (intentar (json_loads lib (reparar_json lib json_str))
               es_JSONDecodeError
               (intentar (literal_eval lib json_str)
                  (fun e => es_ValueError e || es_SyntaxError e)
                  (Ok PyNone)))
      end
  end.

Variable T : Type.

(** The block repeated three times in [parsear_pydantic_seguro]: if
    [valores_default] is true, build the model from it and return it, or
    return [None] on [ValidationError]; otherwise return [None].  Here and
    below [modelo d] is the call of the model class with the items of the
    dictionary [d] as keyword arguments. *)
Definition usar_default (modelo : pyval -> result T)
    (valores_default : option pyval) : result (option T) :=
  match valores_default with
  | Some d =>
      if truthy d then
        match modelo d with
        | Ok v => Ok (Some v)
        | Err e => if es_ValidationError e then Ok None else Err e
        end
      else Ok None
  | None => Ok None
  end.

Definition parsear_pydantic_seguro (texto : pystr)
    (modelo : pyval -> result T) (valores_default : option pyval)
  : result (option T) :=
  match texto with
  | [] => usar_default modelo valores_default
  | _ =>
      match parsear_json_seguro texto with
      | Err e => Err e
      | Ok PyNone => usar_default modelo valores_default
      | Ok data =>
          match modelo data with
          | Ok v => Ok (Some v)
          | Err e =>
              if es_ValidationError e
              then usar_default modelo valores_default
              else Err e
          end
      end
  end.

End Parsear.

(** ** [llm_utils.RetryConfig]

    Delays are numbers of seconds; the floats of the source are read as exact
    rationals.  [random] is the value drawn by [random.random()]. *)

Record RetryConfig : Type := {
  max_retries : nat;
  initial_delay : Q;
  max_delay : Q;
  exponential_base : Q;
  jitter : bool
}.



(** ** [llm_provider.RobustStructuredChain] *)

(** A prompt template after Python's format-string parsing: literal text
    and [{name}] fields. *)
Inductive parte : Type :=
| Texto (s : pystr)
| Campo (nombre : pystr).

Definition dict := list (pystr * pystr).

Fixpoint dict_get (k : pystr) (d : dict) : option pystr :=
  match d with
  | [] => None
  | (k', v) :: r => if str_eqb k k' then Some v else dict_get k r
  end.

Record PromptTemplate : Type := {
  template : list parte;
  partial_variables : dict
}.

Fixpoint format_partes (partes : list parte) (vars : dict) : result pystr :=
  match partes with
  | [] => Ok []
  | Texto s :: r =>
      match format_partes r vars with
      | Ok t => Ok (s ++ t)
      | Err e => Err e
      end
  | Campo nombre :: r =>
      match dict_get nombre vars with
      | None => Err (Exn KeyError nombre)
      | Some v =>
          match format_partes r vars with
          | Ok t => Ok (v ++ t)
          | Err e => Err e
          end
      end
  end.

(** [prompt.format] with keyword arguments [kwargs]: the call's variables
    take precedence over the partial ones; a field without a value raises
    [KeyError]. *)
Definition format (p : PromptTemplate) (kwargs : dict) : result pystr :=
  format_partes (template p) (kwargs ++ partial_variables p).

(** What [invoke] does to the outside, in order: the calls of the backend,
    the records it logs at warning and info level, and the waits.  Debug
    records and the records of [llm_utils] are left out. *)
Inductive evento : Type :=
| Llamada (prompt_str : pystr)              (* self.llm.invoke(prompt_str) *)
| Aviso (intento total : nat) (e : exn)     (* logger.warning: attempt failed *)
| Reintentando                              (* logger.info *)
| AvisoDefault                              (* logger.warning: default used *)
| Espera (segundos : Q).                    (* time.sleep *)

(** The two errors [invoke] raises.  The message of the second is built
    from the number of attempts, the last error and the last response cut
    to 300 characters (left out when empty): these are kept as fields. *)
Inductive error_invoke : Type :=
| LLMQuotaExhaustedError (msg : pystr) (causa : exn)
| LLMRetryExhaustedError (intentos : nat) (ultimo_error : option exn)
    (ultima_respuesta_truncada : option pystr).

Inductive salida (T : Type) : Type :=
| Retorna (v : T)
| Lanza (e : error_invoke).

Arguments Retorna {T} v.
Arguments Lanza {T} e.

Definition mensaje_quota : pystr :=
  u "OPENAI_QUOTA_EXHAUSTED: Tu API key de OpenAI no tiene cr" ++ [233%N]
  ++ u "ditos disponibles. "
  ++ u "Agrega fondos en https://platform.openai.com/account/billing "
  ++ u "o cambia al modo de IA local (Ollama) en la configuraci" ++ [243%N]
  ++ u "n.".

Definition respuesta_vacia : exn :=
  Exn ValueError (u "Respuesta vac" ++ [237%N] ++ u "a del LLM").

Definition no_se_pudo_parsear (texto : pystr) : exn :=
  Exn ValueError
    (u "No se pudo parsear respuesta: " ++ firstn 200 texto ++ u "...").

Section Invoke.

Variable lib : Biblioteca.
Variable T : Type.

(** The backend is called through [llm]: its first argument is the number
    of calls made before this one, so that it may answer differently each
    time. *)
Record RobustStructuredChain : Type := {
  llm : nat -> pystr -> result pystr;
  prompt : PromptTemplate;
  pydantic_model : pyval -> result T;
  parser : pystr -> result T;
  chain_max_retries : nat;
  retry_delay : Q
}.

(** The local variables of [invoke] that survive an iteration, and the
    events so far. *)
Record estado : Type := {
  ultimo_error : option exn;
  ultima_respuesta : option pystr;
  llamadas : nat;
  traza : list evento
}.

(** The body of the [try] block of one iteration. *)
Definition cuerpo (self : RobustStructuredChain) (input_data : dict)
    (default_value : option pyval) (st : estado) : result T * estado :=
  match format (prompt self) input_data with
  | Err e => (Err e, st)
  | Ok prompt_str =>
      let respuesta := llm self (llamadas st) prompt_str in
      let st :=
        {| ultimo_error := ultimo_error st;
           ultima_respuesta := ultima_respuesta st;
           llamadas := S (llamadas st);
           traza := traza st ++ [Llamada prompt_str] |} in
      match respuesta with
      | Err e => (Err e, st)
      | Ok texto =>
          let st :=
            {| ultimo_error := ultimo_error st;
               ultima_respuesta := Some texto;
               llamadas := llamadas st;
               traza := traza st |} in
          match strip texto with
          | [] => (Err respuesta_vacia, st)
          | _ =>
              match parser self texto with
              | Ok v => (Ok v, st)
              | Err _ =>
                  match parsear_pydantic_seguro lib texto
                          (pydantic_model self) default_value with
                  | Ok (Some resultado) => (Ok resultado, st)
                  | Ok None => (Err (no_se_pudo_parsear texto), st)
                  | Err e => (Err e, st)
                  end
              end
          end
      end
  end.

(** The [except] block for an error that is not a quota error: the error
    is remembered and logged. *)
Definition registrar_fallo (retries intento : nat) (e : exn) (st : estado)
  : estado :=
  {| ultimo_error := Some e;
     ultima_respuesta := ultima_respuesta st;
     llamadas := llamadas st;
     traza :=
       traza st ++ Aviso (intento + 1) (retries + 1) e
         :: (if Nat.ltb intento retries then [Reintentando] else []) |}.

(** [for intento in range(retries + 1)], with [pendientes] iterations left;
    [inl] is a [return] or [raise] inside the loop, [inr] its end. *)
Fixpoint bucle (self : RobustStructuredChain) (input_data : dict)
    (default_value : option pyval) (retries pendientes intento : nat)
    (st : estado) : (salida T * estado) + estado :=
  match pendientes with
  | O => inr st
  | S pendientes' =>
      match cuerpo self input_data default_value st with
      | (Ok v, st) => inl (Retorna v, st)
      | (Err e, st) =>
          if is_openai_quota_error lib e then
            inl (Lanza (LLMQuotaExhaustedError mensaje_quota e), st)
          else
            bucle self input_data default_value retries pendientes'
              (S intento) (registrar_fallo retries intento e st)
      end
  end.

(** [ultima_respuesta[:300]] if [ultima_respuesta] is true. *)
Definition truncar_respuesta (ultima_respuesta : option pystr)
  : option pystr :=
  match ultima_respuesta with
  | Some (c :: r) => Some (firstn 300 (c :: r))
  | _ => None
  end.

(** What follows the loop: the default if it can be built, else the
    retry-exhausted error. *)
Definition tras_bucle (self : RobustStructuredChain)
    (default_value : option pyval) (retries : nat) (st : estado)
  : salida T * estado :=
  let agotado :=
    Lanza (LLMRetryExhaustedError (retries + 1) (ultimo_error st)
             (truncar_respuesta (ultima_respuesta st))) in
  match default_value with
  | Some d =>
      let st :=
        {| ultimo_error := ultimo_error st;
           ultima_respuesta := ultima_respuesta st;
           llamadas := llamadas st;
           traza := traza st ++ [AvisoDefault] |} in
      match pydantic_model self d with
      | Ok v => (Retorna v, st)
      | Err _ => (agotado, st)
      end
  | None => (agotado, st)
  end.

Definition estado_inicial : estado :=
  {| ultimo_error := None; ultima_respuesta := None;
     llamadas := O; traza := [] |}.

(** [max_retries if max_retries is not None else self.max_retries] *)
Definition reintentos (self : RobustStructuredChain)
    (max_retries : option nat) : nat :=
  match max_retries with
  | Some r => r
  | None => chain_max_retries self
  end.

Definition invoke (self : RobustStructuredChain) (input_data : dict)
    (default_value : option pyval) (max_retries : option nat)
  : salida T * estado :=
  let retries := reintentos self max_retries in
  match bucle self input_data default_value retries (retries + 1) O
          estado_inicial with
  | inl r => r
  | inr st => tras_bucle self default_value retries st
  end.

End Invoke.

Arguments truncar_respuesta : simpl never.


Definition es_aviso (ev : evento) : bool :=
  match ev with Aviso _ _ _ => true | _ => false end.

Definition es_llamada (ev : evento) : bool :=
  match ev with Llamada _ => true | _ => false end.


(** The number of iterations that ended in the [except] block. *)
Definition intentos_fallidos (tr : list evento) : nat :=
  List.length (filter es_aviso tr).

(** ** Brace-balanced text

    The shape of the text of a JSON object as the bracket scanner sees it:
    outside strings, characters other than the double quote, the backslash
    and the braces, double-quoted strings and nested objects; inside a
    string, any character other than the double quote and the backslash, or
    a backslash followed by any character.  The text of every JSON object is
    of this shape. *)

Inductive sitem : Type :=
| Plain (c : char)
| Escaped (c : char).

Inductive jnode : Type :=
| Tok (c : char)
| Str (body : list sitem)
| Obj (inner : list jnode).

Definition render_sitem (i : sitem) : pystr :=
  match i with
  | Plain c => [c]
  | Escaped c => [bs; c]
  end.

Fixpoint render (n : jnode) : pystr :=
  match n with
  | Tok c => [c]
  | Str body => dq :: flat_map render_sitem body ++ [dq]
  | Obj inner => lbrace :: flat_map render inner ++ [rbrace]
  end.

Definition plain_ok (c : char) : bool :=
  negb (N.eqb c dq) && negb (N.eqb c bs).

Definition tok_ok (c : char) : bool :=
  plain_ok c && negb (N.eqb c lbrace) && negb (N.eqb c rbrace).

Definition sitem_ok (i : sitem) : bool :=
  match i with
  | Plain c => plain_ok c
  | Escaped _ => true
  end.

Fixpoint wf (n : jnode) : bool :=
  match n with
  | Tok c => tok_ok c
  | Str body => forallb sitem_ok body
  | Obj inner => forallb wf inner
  end.

(** The scan for the brace that closes an object. *)
Definition cierre_llave : pystr -> nat -> Z -> bool -> bool -> option nat :=
  buscar_cierre lbrace rbrace.

(** [c not in s] *)
Definition sin_caracter (c : char) (s : pystr) : bool :=
  forallb (fun x => negb (N.eqb c x)) s.

(** Induction on the nesting of objects. *)
Unset Implicit Arguments.

Fixpoint jnode_rect' (P : jnode -> Prop)
    (HT : forall c, P (Tok c)) (HS : forall b, P (Str b))
    (HO : forall inner, Forall P inner -> P (Obj inner))
    (n : jnode) : P n :=
  match n with
  | Tok c => HT c
  | Str b => HS b
  | Obj inner =>
      HO inner
        ((fix go (l : list jnode) : Forall P l :=
            match l with
            | [] => Forall_nil P
            | x :: t => Forall_cons x (jnode_rect' P HT HS HO x) (go t)
            end) inner)
  end.

Set Implicit Arguments.



(** ** Inert strings *)





(** ** Concrete libraries, chains and inputs used to evaluate the model *)

Module Ejemplos.

(** A library whose parsers reject everything and whose classifier takes
    the errors of class [RateLimitError] for quota errors. *)
Definition lib_rechaza : Biblioteca :=
  {| unicode_alnum := fun _ => false;
     json_loads := fun _ => Err (Exn JSONDecodeError []);
     literal_eval := fun _ => Err (Exn SyntaxError []);
     is_openai_quota_error := fun e =>
       match exn_clase e with
       | OtherError name => str_eqb name (u "RateLimitError")
       | _ => false
       end |}.

(** The template [Label: {kw}]. *)
Definition prompt_label : PromptTemplate :=
  {| template := [Texto (u "Label: "); Campo (u "kw")];
     partial_variables := [(u "format_instructions", u "Return JSON.")] |}.

Definition vars_label : dict := [(u "kw", u "beach, sunset")].

Definition dict_label (s : pystr) : pyval :=
  PyDict [(PyStr (u "label"), PyStr s)].

(** The schema with one string field [label]; an instance is shown as the
    dictionary of its fields. *)
Definition modelo_label (d : pyval) : result pyval :=
  match d with
  | PyDict [(PyStr k, PyStr s)] =>
      if str_eqb k (u "label") then Ok (dict_label s)
      else Err (Exn ValidationError (u "label: field required"))
  | PyDict _ => Err (Exn ValidationError (u "label: field required"))
  | _ => Err (Exn TypeError (u "argument after ** must be a mapping"))
  end.

Definition parser_rechaza (texto : pystr) : result pyval :=
  Err (Exn (OtherError (u "OutputParserException")) texto).

(** A chain over a backend that answers every call in the same way. *)
Definition cadena (respuesta : result pystr) : RobustStructuredChain pyval :=
  {| llm := fun _ _ => respuesta;
     prompt := prompt_label;
     pydantic_model := modelo_label;
     parser := parser_rechaza;
     chain_max_retries := 3;
     retry_delay := 1%Q |}.

Definition error_quota : exn :=
  Exn (OtherError (u "RateLimitError")) (u "insufficient_quota").

Definition error_timeout : exn :=
  Exn (OtherError (u "TimeoutError")) (u "timed out").

Definition prompt_str_label : pystr := u "Label: beach, sunset".

(** The response of the labelling scenario, the candidate extracted from
    its fenced block and the candidate after repair. *)
Definition respuesta_label : pystr :=
  u "Sure! ```json" ++ [nl] ++ u "{'label': 'Beach Sunset'}" ++ [nl]
  ++ u "```".

Definition candidato_label : pystr := u "{'label': 'Beach Sunset'}".

Definition reparado_label : pystr :=
  u "{" ++ quoted (u "label") ++ u ":" ++ quoted (u "Beach Sunset") ++ u "}".

(** A library whose [json.loads] knows the repaired candidate only. *)
Definition lib_label : Biblioteca :=
  {| unicode_alnum := fun _ => false;
     json_loads := fun s =>
       if str_eqb s reparado_label then Ok (dict_label (u "Beach Sunset"))
       else Err (Exn JSONDecodeError (u "Expecting property name"));
     literal_eval := fun _ => Err (Exn SyntaxError []);
     is_openai_quota_error := fun _ => false |}.

(** A backend that answers the first call with [primera] and the later
    ones with [despues]. *)
Definition cadena_dos (primera despues : result pystr)
  : RobustStructuredChain pyval :=
  {| llm := fun n _ => match n with O => primera | _ => despues end;
     prompt := prompt_label;
     pydantic_model := modelo_label;
     parser := parser_rechaza;
     chain_max_retries := 3;
     retry_delay := 1%Q |}.

(** The retry policy [(max_retries=3, initial_delay=1.0, max_delay,
    multiplier=2.0, jitter)]. *)
Definition politica (max_delay : Q) (jitter : bool) : RetryConfig :=
  {| max_retries := 3;
     initial_delay := 1%Q;
     max_delay := max_delay;
     exponential_base := 2%Q;
     jitter := jitter |}.

(** The object [{D a D: D x}y D}], where [D] stands for the double quote,
    and its text. *)
Definition objeto_llave : jnode :=
  Obj [Str [Plain 97%N]; Tok colon; Tok 32%N;
       Str [Plain 120%N; Plain rbrace; Plain 121%N]].

Definition texto_llave : pystr :=
  u "{" ++ quoted (u "a") ++ u ": " ++ quoted (u "x}y") ++ u "}".




(** A default that the schema rejects. *)
Definition default_invalido : pyval :=
  PyDict [(PyStr (u "etiqueta"), PyStr (u "Tema"))].

End Ejemplos.

(** * Further models

    The attempts of [invoke] as predicates, and the functions of
    [llm_utils], [llm_provider], [config] and the phases that the loop of
    [invoke] has siblings or callers in. *)

(** ** The attempts of [invoke] *)

Section Intentos.

Variable lib : Biblioteca.
Variable T : Type.

(** The ways in which the iteration that makes call number [n] of the
    backend, with the prompt [prompt_str], ends in the error [e]: the
    backend raises [e]; the response is blank; neither parser gets a value
    out of the response; the manual parse raises [e]. *)
Definition intento_falla (self : RobustStructuredChain T)
    (default_value : option pyval) (prompt_str : pystr) (n : nat) (e : exn)
  : Prop :=
  llm self n prompt_str = Err e
  \/ (exists t,
        llm self n prompt_str = Ok t /\ strip t = [] /\ e = respuesta_vacia)
  \/ (exists t e',
        llm self n prompt_str = Ok t /\ strip t <> []
        /\ parser self t = Err e'
        /\ ((parsear_pydantic_seguro lib t (pydantic_model self)
               default_value = Ok None
             /\ e = no_se_pudo_parsear t)
            \/ parsear_pydantic_seguro lib t (pydantic_model self)
                 default_value = Err e)).

(** The iteration that makes call number [n] returns [v]: the response is
    not blank and the LangChain parser, or else the manual parse, gives
    [v]. *)
Definition intento_devuelve (self : RobustStructuredChain T)
    (default_value : option pyval) (prompt_str : pystr) (n : nat) (v : T)
  : Prop :=
  exists t,
    llm self n prompt_str = Ok t /\ strip t <> []
    /\ (parser self t = Ok v
        \/ (exists e',
              parser self t = Err e'
              /\ parsear_pydantic_seguro lib t (pydantic_model self)
                   default_value = Ok (Some v))).

End Intentos.


(** ** The delay before the clamp *)


(** The closing fence of a block: three backticks. *)
Definition cierre_bloque : regex := lit (u "``") (Chr (just backtick)).


(** ** The other retry loops of [llm_utils]

    Log records are left out of these models; what is kept is the result
    and the number of calls made. *)

(** What the loops of [llm_utils] raise: [LLMRetryExhaustedError] with the
    attempt count and the last error in its message; the same class with
    the message that the default could not be used either, chained to the
    validation error; or an exception that no handler catches. *)
Inductive error_utils : Type :=
| Agotado (intentos : nat) (ultimo_error : option exn)
| DefaultRechazado (e : exn)
| Propagado (e : exn).

Inductive salida_utils (A : Type) : Type :=
| Devuelve (a : A)
| Falla (e : error_utils).

Arguments Devuelve {A} a.
Arguments Falla {A} e.

Definition llm_empty_response (msg : pystr) : exn :=
  Exn (OtherError (u "LLMEmptyResponseError")) msg.

Definition llm_parsing_error (texto : pystr) : exn :=
  Exn (OtherError (u "LLMParsingError"))
    (u "No se pudo parsear respuesta: " ++ firstn 200 texto ++ u "...").

Section FallbackManual.

Variable lib : Biblioteca.
Variable T : Type.

(** The [try] block of [invocar_llm_con_fallback_manual] for call number
    [n]. *)
Definition cuerpo_manual (llm : nat -> pystr -> result pystr)
    (prompt : pystr) (modelo_pydantic : pyval -> result T)
    (valores_default : option pyval) (n : nat) : result T :=
  match llm n prompt with
  | Err e => Err e
  | Ok texto =>
      match strip texto with
      | [] =>
          Err (llm_empty_response
                 (u "Respuesta vac" ++ [237%N] ++ u "a del LLM"))
      | _ =>
          match parsear_pydantic_seguro lib texto modelo_pydantic
                  valores_default with
          | Ok (Some resultado) => Ok resultado
          | Ok None => Err (llm_parsing_error texto)
          | Err e => Err e
          end
      end
  end.

(** The loop: both handlers record the error and go on.  [inl] is the
    [return] inside the loop with the number of calls made, [inr] the end
    of the loop with the last error. *)
Fixpoint bucle_manual (llm : nat -> pystr -> result pystr)
    (prompt : pystr) (modelo_pydantic : pyval -> result T)
    (valores_default : option pyval) (pendientes intento : nat)
    (ultimo_error : option exn) : (T * nat) + (option exn * nat) :=
  match pendientes with
  | O => inr (ultimo_error, intento)
  | S pendientes' =>
      match cuerpo_manual llm prompt modelo_pydantic valores_default
              intento with
      | Ok resultado => inl (resultado, S intento)
      | Err e =>
          bucle_manual llm prompt modelo_pydantic valores_default
            pendientes' (S intento) (Some e)
      end
  end.

(** The result and the number of calls of the backend. *)
Definition invocar_llm_con_fallback_manual
    (llm : nat -> pystr -> result pystr) (prompt : pystr)
    (modelo_pydantic : pyval -> result T) (max_retries : nat)
    (valores_default : option pyval) : salida_utils T * nat :=
  match bucle_manual llm prompt modelo_pydantic valores_default
          (max_retries + 1) 0 None with
  | inl (resultado, n) => (Devuelve resultado, n)
  | inr (ultimo_error, n) =>
      let agotado := Falla (Agotado (max_retries + 1) ultimo_error) in
      match valores_default with
      | Some d =>
          if truthy d then
            match modelo_pydantic d with
            | Ok v => (Devuelve v, n)
            | Err e =>
                if es_ValidationError e
                then (Falla (DefaultRechazado e), n)
                else (Falla (Propagado e), n)
            end
          else (agotado, n)
      | None => (agotado, n)
      end
  end.

End FallbackManual.

(** ** [llm_utils.invocar_llm_con_retry] *)

Section ConRetry.

Variable R : Type.
Variable T : Type.

(** What the function returns: the result of the chain, which may be
    [None], or the model built from the default. *)
Inductive retorno_retry : Type :=
| DeCadena (resultado : option R)
| DeDefault (v : T).

(** The [try] block for call number [n] of the chain. *)
Definition cuerpo_retry (chain : nat -> result (option R))
    (modelo_pydantic : option (pyval -> result T)) (n : nat)
  : result (option R) :=
  match chain n with
  | Err e => Err e
  | Ok resultado =>
      match resultado, modelo_pydantic with
      | None, Some _ =>
          Err (llm_empty_response (u "LLM devolvi" ++ [243%N] ++ u " None"))
      | _, _ => Ok resultado
      end
  end.

Fixpoint bucle_retry (chain : nat -> result (option R))
    (modelo_pydantic : option (pyval -> result T))
    (pendientes intento : nat) (ultimo_error : option exn)
  : (option R * nat) + (option exn * nat) :=
  match pendientes with
  | O => inr (ultimo_error, intento)
  | S pendientes' =>
      match cuerpo_retry chain modelo_pydantic intento with
      | Ok resultado => inl (resultado, S intento)
      | Err e =>
          bucle_retry chain modelo_pydantic pendientes' (S intento) (Some e)
      end
  end.

Definition invocar_llm_con_retry (chain : nat -> result (option R))
    (max_retries : nat) (modelo_pydantic : option (pyval -> result T))
    (valores_default : option pyval) : salida_utils retorno_retry * nat :=
  match bucle_retry chain modelo_pydantic (max_retries + 1) 0 None with
  | inl (resultado, n) => (Devuelve (DeCadena resultado), n)
  | inr (ultimo_error, n) =>
      let agotado := Falla (Agotado (max_retries + 1) ultimo_error) in
      match modelo_pydantic, valores_default with
      | Some modelo, Some d =>
          if truthy d then
            match modelo d with
            | Ok v => (Devuelve (DeDefault v), n)
            | Err e =>
                if es_ValidationError e then (agotado, n)
                else (Falla (Propagado e), n)
            end
          else (agotado, n)
      | _, _ => (agotado, n)
      end
  end.

End ConRetry.

(** ** [llm_utils.con_reintentos] *)

(** [RetryConfig()] *)
Definition retry_config_default : RetryConfig :=
  {| max_retries := 3;
     initial_delay := 1%Q;
     max_delay := 30%Q;
     exponential_base := 2%Q;
     jitter := true |}.

Section ConReintentos.

Variable A : Type.

(** What the wrapper does to the outside: calls of the wrapped function,
    calls of the [on_retry] callback and, without a callback, the warning
    it logs instead; the error logged after the last attempt. *)
Inductive evento_reintento : Type :=
| LlamaFunc
| OnRetry (intento : nat) (e : exn)
| LogReintento (intento total : nat) (e : exn)
| LogAgotado (total : nat) (e : exn).

(** [func n] is call number [n] of the wrapped function; [reintentable]
    is membership in [excepciones_reintentables]; [on_retry i e] is [None]
    when the callback returns and [Some e'] when it raises [e']. *)
Fixpoint bucle_reintentos (func : nat -> result A)
    (reintentable : exn -> bool)
    (on_retry : option (nat -> exn -> option exn))
    (max_retries pendientes intento : nat) (ultimo_error : option exn)
    (tr : list evento_reintento)
  : salida_utils A * list evento_reintento :=
  match pendientes with
  | O => (Falla (Agotado (max_retries + 1) ultimo_error), tr)
  | S pendientes' =>
      let tr := tr ++ [LlamaFunc] in
      match func intento with
      | Ok a => (Devuelve a, tr)
      | Err e =>
          if reintentable e then
            if Nat.ltb intento max_retries then
              match on_retry with
              | Some callback =>
                  let tr := tr ++ [OnRetry (intento + 1) e] in
                  match callback (intento + 1) e with
                  | None =>
                      bucle_reintentos func reintentable on_retry
                        max_retries pendientes' (S intento) (Some e) tr
                  | Some e' => (Falla (Propagado e'), tr)
                  end
              | None =>
                  bucle_reintentos func reintentable on_retry max_retries
                    pendientes' (S intento) (Some e)
                    (tr ++ [LogReintento (intento + 1) (max_retries + 1) e])
              end
            else
              bucle_reintentos func reintentable on_retry max_retries
                pendientes' (S intento) (Some e)
                (tr ++ [LogAgotado (max_retries + 1) e])
          else (Falla (Propagado e), tr)
      end
  end.

(** The wrapper built by [con_reintentos(config, excepciones, on_retry)]
    around [func]; without a [config] the default [RetryConfig()] is used,
    and of the configuration only [max_retries] is read. *)
Definition con_reintentos (config : option RetryConfig)
    (reintentable : exn -> bool)
    (on_retry : option (nat -> exn -> option exn))
    (func : nat -> result A) : salida_utils A * list evento_reintento :=
  let config :=
    match config with
    | Some c => c
    | None => retry_config_default
    end in
  bucle_reintentos func reintentable on_retry (max_retries config)
    (max_retries config + 1) 0 None [].

End ConReintentos.

Definition es_llama_func (ev : evento_reintento) : bool :=
  match ev with LlamaFunc => true | _ => false end.

Definition es_on_retry (ev : evento_reintento) : bool :=
  match ev with OnRetry _ _ => true | _ => false end.

(** ** [_invocar_llm_con_retry] of the summary and insight phases

    [fase_07_resumen_inteligente] and [fase_08_insights_estrategicos] hold
    the same loop, up to the text of the empty-response error. *)

Section Fases.

Variable lib : Biblioteca.

(** [cadena n] is attempt number [n]: the chain is created and invoked;
    [vacia] is the [ValueError] for an empty response.  The function
    returns a string or raises [RuntimeError] chained to a quota error. *)
Fixpoint bucle_fase (cadena : nat -> result pystr) (vacia : exn)
    (pendientes intento : nat) : result pystr * nat :=
  match pendientes with
  | O => (Ok [], intento)
  | S pendientes' =>
      let r :=
        match cadena intento with
        | Ok resultado =>
            match strip resultado with
            | [] => Err vacia
            | _ => Ok resultado
            end
        | Err e => Err e
        end in
      match r with
      | Ok resultado => (Ok resultado, S intento)
      | Err e =>
          if is_openai_quota_error lib e then
            (Err (Exn (OtherError (u "RuntimeError")) mensaje_quota),
             S intento)
          else bucle_fase cadena vacia pendientes' (S intento)
      end
  end.

Definition fase_invocar_llm_con_retry (cadena : nat -> result pystr)
    (vacia : exn) (max_retries : nat) : result pystr * nat :=
  bucle_fase cadena vacia (max_retries + 1) 0.

End Fases.


(** The callback invocations of attempts [i], [i + 1], ..., [i + k - 1]
    that fail with the errors [e i], ... *)
Fixpoint avisos_on_retry (e : nat -> exn) (i k : nat)
  : list evento_reintento :=
  match k with
  | O => []
  | S k' => OnRetry (i + 1) (e i) :: avisos_on_retry e (S i) k'
  end.


(** ** [config.ConfigLLM] and [llm_provider.LLMProvider]

    The class attributes of [ConfigLLM] that the provider reads. *)
Record ConfigLLM : Type := {
  LLM_MODE : pystr;
  OPENAI_API_KEY : option pystr;
  OLLAMA_MODEL : pystr;
  OLLAMA_BASE_URL : pystr
}.

Definition runtime_error (msg : pystr) : exn :=
  Exn (OtherError (u "RuntimeError")) msg.

Definition import_error (msg : pystr) : exn :=
  Exn (OtherError (u "ImportError")) msg.

(** [ImportError] and its subclass [ModuleNotFoundError]. *)
Definition es_ImportError (e : exn) : bool :=
  match exn_clase e with
  | OtherError name =>
      str_eqb name (u "ImportError")
      || str_eqb name (u "ModuleNotFoundError")
  | _ => false
  end.

Definition falta_api_key : exn :=
  Exn ValueError
    (u "Modo 'api' seleccionado pero OPENAI_API_KEY no est" ++ [225%N]
     ++ u " configurado. "
     ++ u "Agrega tu clave en el archivo .env o como variable de entorno.").

Definition falta_modelo_ollama : exn :=
  Exn ValueError
    (u "Modo 'local' seleccionado pero OLLAMA_MODEL no est" ++ [225%N]
     ++ u " configurado. "
     ++ u "Ejecuta el asistente de configuraci" ++ [243%N]
     ++ u "n o establece la variable de entorno OLLAMA_MODEL.").

(** [ConfigLLM.validar_configuracion]: [True] or a [ValueError]. *)
Definition validar_configuracion (cfg : ConfigLLM) : result bool :=
  if str_eqb (LLM_MODE cfg) (u "api") then
    match OPENAI_API_KEY cfg with
    | None | Some [] => Err falta_api_key
    | Some _ => Ok true
    end
  else if str_eqb (LLM_MODE cfg) (u "local") then
    match OLLAMA_MODEL cfg with
    | [] => Err falta_modelo_ollama
    | _ => Ok true
    end
  else Ok true.

Definition quota_exhausted : exn :=
  Exn (OtherError (u "LLMQuotaExhaustedError")) mensaje_quota.

Definition no_hay_llm : exn :=
  runtime_error
    (u "No hay LLM configurado. El modo actual es 'none'. "
     ++ u "Las fases que requieren LLM (6 y 7) no est" ++ [225%N]
     ++ u "n disponibles. "
     ++ u "Cambia el modo en la configuraci" ++ [243%N]
     ++ u "n para usar un LLM.").

Section Proveedor.

Variable lib : Biblioteca.

(** The client type of LangChain and what the provider asks of it: the
    import and construction of [ChatOpenAI] and of [ChatOllama] for a
    configuration, and the truth value of the answer to the probe prompt.
    [exn_msg] stands for the text of an exception in the messages built
    from it.  What the provider prints and logs is left out. *)
Variable cliente : Type.

Record Langchain : Type := {
  crear_openai : ConfigLLM -> result cliente;
  crear_ollama : ConfigLLM -> result cliente;
  sondear : cliente -> result bool
}.

Variable lc : Langchain.

Inductive evento_proveedor : Type :=
| Construye (modo : pystr)
| Sondea.

(** The class state: the configuration, and the singleton, if created,
    with the value that [self._llm] reads on it. *)
Record estado_proveedor : Type := {
  config : ConfigLLM;
  instancia : option (option cliente)
}.

(** [_validar_openai] *)
Definition _validar_openai (c : cliente) : result unit :=
  let r :=
    match sondear lc c with
    | Ok true => Ok tt
    | Ok false =>
        Err (runtime_error
               (u "OpenAI no respondi" ++ [243%N] ++ u " correctamente"))
    | Err e => Err e
    end in
  match r with
  | Ok x => Ok x
  | Err e => if is_openai_quota_error lib e then Err quota_exhausted else Err e
  end.

(** The message of the [RuntimeError] of [_validar_ollama]. *)
Definition mensaje_sin_conexion (cfg : ConfigLLM) (e : exn) : pystr :=
  u "No se pudo conectar con Ollama: " ++ exn_msg e ++ [nl; nl]
  ++ u "Pasos para solucionar:" ++ [nl]
  ++ u "1. Instala Ollama: https://ollama.ai" ++ [nl]
  ++ u "2. Inicia el servidor: ollama serve" ++ [nl]
  ++ u "3. Descarga el modelo: ollama pull " ++ OLLAMA_MODEL cfg ++ [nl]
  ++ u "4. Verifica que est" ++ [233%N] ++ u " ejecut" ++ [225%N]
  ++ u "ndose en: " ++ OLLAMA_BASE_URL cfg.

(** The messages of the [RuntimeError] of the two initialisers. *)
Definition mensaje_error_openai (cfg : ConfigLLM) (e : exn) : pystr :=
  u "Error al inicializar OpenAI: " ++ exn_msg e.

Definition mensaje_error_ollama (cfg : ConfigLLM) (e : exn) : pystr :=
  u "Error al inicializar Ollama: " ++ exn_msg e ++ [nl; nl]
  ++ u "Aseg" ++ [250%N] ++ u "rate de que:" ++ [nl]
  ++ u "1. Ollama est" ++ [225%N] ++ u " instalado (https://ollama.ai)"
  ++ [nl]
  ++ u "2. Ollama est" ++ [225%N] ++ u " ejecut" ++ [225%N]
  ++ u "ndose (ollama serve)" ++ [nl]
  ++ u "3. El modelo '" ++ OLLAMA_MODEL cfg ++ u "' est" ++ [225%N]
  ++ u " descargado (ollama pull " ++ OLLAMA_MODEL cfg ++ u ")".

(** [_validar_ollama] *)
Definition _validar_ollama (cfg : ConfigLLM) (c : cliente) : result unit :=
  let r :=
    match sondear lc c with
    | Ok true => Ok tt
    | Ok false =>
        Err (runtime_error
               (u "Ollama no respondi" ++ [243%N] ++ u " correctamente"))
    | Err e => Err e
    end in
  match r with
  | Ok x => Ok x
  | Err e => Err (runtime_error (mensaje_sin_conexion cfg e))
  end.

(** The [except] clauses shared by [_inicializar_openai] and
    [_inicializar_ollama]. *)
Definition envolver (modulo paquete : pystr) (mensaje : exn -> pystr)
    (e : exn) : exn :=
  if es_ImportError e then
    import_error
      (modulo ++ u " no est" ++ [225%N] ++ u " instalado. Instala con: "
       ++ u "pip install " ++ paquete)
  else runtime_error (mensaje e).

(** [_inicializar_openai] and [_inicializar_ollama]: the client is stored
    in [self._llm] before it is probed.  The result is the error raised, if
    any, the value of [self._llm] afterwards, and the events. *)
Definition _inicializar_backend
    (crear : ConfigLLM -> result cliente)
    (validar : cliente -> result unit) (modulo paquete : pystr)
    (mensaje : exn -> pystr) (modo : pystr)
    (cfg : ConfigLLM) (llm0 : option cliente)
  : result unit * option cliente * list evento_proveedor :=
  match crear cfg with
  | Err e => (Err (envolver modulo paquete mensaje e), llm0, [Construye modo])
  | Ok c =>
      match validar c with
      | Ok _ => (Ok tt, Some c, [Construye modo; Sondea])
      | Err e =>
          (Err (envolver modulo paquete mensaje e), Some c,
           [Construye modo; Sondea])
      end
  end.

(** [_inicializar_llm] *)
Definition _inicializar_llm (cfg : ConfigLLM) (llm0 : option cliente)
  : result unit * option cliente * list evento_proveedor :=
  match validar_configuracion cfg with
  | Err e => (Err e, llm0, [])
  | Ok _ =>
      if str_eqb (LLM_MODE cfg) (u "none") then (Ok tt, None, [])
      else if str_eqb (LLM_MODE cfg) (u "api") then
        _inicializar_backend (crear_openai lc) _validar_openai
          (u "langchain_openai") (u "langchain-openai")
          (mensaje_error_openai cfg) (u "api") cfg llm0
      else if str_eqb (LLM_MODE cfg) (u "local") then
        _inicializar_backend (crear_ollama lc) (_validar_ollama cfg)
          (u "langchain_ollama") (u "langchain-ollama")
          (mensaje_error_ollama cfg) (u "local") cfg llm0
      else
        (Err (Exn ValueError (u "Modo LLM no soportado: " ++ LLM_MODE cfg)),
         llm0, [])
  end.

(** [LLMProvider()]: [__new__] creates the singleton if there is none,
    [__init__] initialises the backend if [self._llm] is [None]. *)
Definition LLMProvider (st : estado_proveedor)
  : result unit * estado_proveedor * list evento_proveedor :=
  let llm0 :=
    match instancia st with
    | Some l => l
    | None => None
    end in
  match llm0 with
  | Some _ =>
      (Ok tt, {| config := config st; instancia := Some llm0 |}, [])
  | None =>
      match _inicializar_llm (config st) llm0 with
      | (r, l, evs) =>
          (r, {| config := config st; instancia := Some l |}, evs)
      end
  end.

(** The module-level [get_llm()]: [LLMProvider().get_llm()]. *)
Definition get_llm (st : estado_proveedor)
  : result cliente * estado_proveedor * list evento_proveedor :=
  match LLMProvider st with
  | (Err e, st', evs) => (Err e, st', evs)
  | (Ok _, st', evs) =>
      match instancia st' with
      | Some (Some c) => (Ok c, st', evs)
      | _ => (Err no_hay_llm, st', evs)
      end
  end.

(** [LLMProvider.cambiar_modo] *)
Definition cambiar_modo (modo : pystr) (st : estado_proveedor)
  : result unit * estado_proveedor * list evento_proveedor :=
  if str_eqb modo (u "api") || str_eqb modo (u "local") then
    LLMProvider
      {| config :=
           {| LLM_MODE := modo;
              OPENAI_API_KEY := OPENAI_API_KEY (config st);
              OLLAMA_MODEL := OLLAMA_MODEL (config st);
              OLLAMA_BASE_URL := OLLAMA_BASE_URL (config st) |};
         instancia := None |}
  else
    (Err (Exn ValueError
            (u "Modo inv" ++ [225%N] ++ u "lido: " ++ modo
             ++ u ". Usa 'api' o 'local'")),
     st, []).

(** What [crear_chain_estructurado_robusto] takes from LangChain: the
    call of a client on a prompt, and for a model class the format
    instructions and the parser of [PydanticOutputParser]. *)
Variable T : Type.

Record Salida : Type := {
  invocar : cliente -> nat -> pystr -> result pystr;
  get_format_instructions : (pyval -> result T) -> pystr;
  parser_de : (pyval -> result T) -> pystr -> result T
}.

Variable sal : Salida.

Definition sin_llm_para_chains : exn :=
  runtime_error
    (u "No hay LLM configurado (modo 'none'). "
     ++ u "No se pueden crear chains sin un LLM activo.").

(** [crear_chain_estructurado_robusto] on a provider whose [self._llm] is
    [llm_actual]; the template is given after format-string parsing. *)
Definition crear_chain_estructurado_robusto (llm_actual : option cliente)
    (plantilla : list parte) (modelo : pyval -> result T) (kwargs : dict)
  : result (RobustStructuredChain T) :=
  match llm_actual with
  | None => Err sin_llm_para_chains
  | Some c =>
      let kwargs :=
        match dict_get (u "format_instructions") kwargs with
        | Some _ => kwargs
        | None =>
            kwargs
            ++ [(u "format_instructions",
                 get_format_instructions sal modelo)]
        end in
      Ok {| llm := invocar sal c;
            prompt :=
              {| template := plantilla; partial_variables := kwargs |};
            pydantic_model := modelo;
            parser := parser_de sal modelo;
            chain_max_retries := 3;
            retry_delay := 1%Q |}
  end.

(** The module-level [crear_chain_robusto(template, pydantic_model,
    max_retries, **kwargs)]. *)
Definition crear_chain_robusto (st : estado_proveedor)
    (plantilla : list parte) (modelo : pyval -> result T)
    (max_retries : nat) (kwargs : dict)
  : result (RobustStructuredChain T) * estado_proveedor
    * list evento_proveedor :=
  match LLMProvider st with
  | (Err e, st', evs) => (Err e, st', evs)
  | (Ok _, st', evs) =>
      (crear_chain_estructurado_robusto
         (match instancia st' with Some l => l | None => None end)
         plantilla modelo kwargs, st', evs)
  end.

End Proveedor.


(** ** More concrete inputs *)

(** ** [llm_provider.LLMProvider._extraer_variables] *)

(** [re.findall] for a pattern with one group and without empty matches:
    the first group of each match, from left to right. *)
Fixpoint findall_from (fuel : nat) (r : regex) (bef aft : pystr)
  : list pystr :=
  match fuel with
  | O => []
  | S fuel' =>
      match search r bef aft with
      | None => []
      | Some (_, st) =>
          group 1 (caps st) :: findall_from fuel' r (before st) (after st)
      end
  end.

Definition findall (r : regex) (s : pystr) : list pystr :=
  findall_from (S (length s)) r [] s.

Section Variables.

Variable lib : Biblioteca.

(** The pattern of a placeholder: an opening brace, a word, a closing
    brace. *)
Definition re_variable : regex :=
  seqs [Chr (just lbrace);
        Group 1 (Seq (Chr (es_palabra lib)) (Star true (Chr (es_palabra lib))))]
    (Chr (just rbrace)).

(** The names are collected in a Python set, whose order is not
    specified: the list returned is meaningful up to its order. *)
Definition _extraer_variables (template : pystr) : list pystr :=
  nodup (list_eq_dec N.eq_dec) (findall re_variable template).

End Variables.

(** The text of a template: its literal runs as they are, each placeholder
    as its name between braces. *)
Definition plantilla_texto (partes : list parte) : pystr :=
  flat_map (fun p =>
              match p with
              | Texto s => s
              | Campo nombre => lbrace :: nombre ++ [rbrace]
              end) partes.

Definition nombres (partes : list parte) : list pystr :=
  flat_map (fun p =>
              match p with
              | Texto _ => []
              | Campo nombre => [nombre]
              end) partes.

(** Literal parts without an opening brace, names that are words. *)
Definition parte_simple (lib : Biblioteca) (p : parte) : bool :=
  match p with
  | Texto s => sin_caracter lbrace s
  | Campo nombre =>
      match nombre with
      | [] => false
      | _ => forallb (es_palabra lib) nombre
      end
  end.

(** The number of placeholders of a template. *)
Fixpoint n_campos (partes : list parte) : nat :=
  match partes with
  | [] => O
  | Texto _ :: r => n_campos r
  | Campo _ :: r => S (n_campos r)
  end.

Module Ejemplos2.

Import Ejemplos.

(** A schema whose only field [label] has the default [Sin etiqueta]: the
    empty dictionary builds an instance. *)
Definition modelo_opcional (d : pyval) : result pyval :=
  match d with
  | PyDict [] => Ok (dict_label (u "Sin etiqueta"))
  | PyDict [(PyStr k, PyStr s)] =>
      if str_eqb k (u "label") then Ok (dict_label s)
      else Err (Exn ValidationError (u "label: extra field"))
  | PyDict _ => Err (Exn ValidationError (u "label: extra field"))
  | _ => Err (Exn TypeError (u "argument after ** must be a mapping"))
  end.

Definition cadena_opcional (respuesta : result pystr)
  : RobustStructuredChain pyval :=
  {| llm := fun _ _ => respuesta;
     prompt := prompt_label;
     pydantic_model := modelo_opcional;
     parser := parser_rechaza;
     chain_max_retries := 3;
     retry_delay := 1%Q |}.

(** A backend that times out on the first call, as a function of the call
    number alone. *)
Definition llm_timeout_luego (despues : result pystr) (n : nat)
    (_ : pystr) : result pystr :=
  match n with
  | O => Err error_timeout
  | _ => despues
  end.

(** A chain of LangChain that answers [None] once and then a string. *)
Definition chain_none_luego (n : nat) : result (option pystr) :=
  match n with
  | O => Ok None
  | _ => Ok (Some (u "ok"))
  end.

Definition es_timeout (e : exn) : bool :=
  match exn_clase e with
  | OtherError name => str_eqb name (u "TimeoutError")
  | _ => false
  end.

Definition error_tipo : exn :=
  Exn TypeError (u "unsupported operand").

(** A function that times out once and then fails for good. *)
Definition func_timeout_luego_tipo (n : nat) : result pystr :=
  match n with
  | O => Err error_timeout
  | _ => Err error_tipo
  end.

Definition config_api : ConfigLLM :=
  {| LLM_MODE := u "api";
     OPENAI_API_KEY := Some (u "sk-test");
     OLLAMA_MODEL := [];
     OLLAMA_BASE_URL := u "http://localhost:11434" |}.

Definition config_local_sin_clave : ConfigLLM :=
  {| LLM_MODE := u "local";
     OPENAI_API_KEY := None;
     OLLAMA_MODEL := u "llama3.2:3b";
     OLLAMA_BASE_URL := u "http://localhost:11434" |}.

(** Clients are numbered; the probe of client [0] answers, that of the
    others raises the quota error. *)
Definition langchain_ejemplo (primero : nat) : Langchain nat :=
  {| crear_openai := fun _ => Ok primero;
     crear_ollama := fun _ => Ok primero;
     sondear := fun c =>
       match c with
       | O => Ok true
       | _ => Err error_quota
       end |}.

Definition salida_ejemplo : Salida nat pyval :=
  {| invocar := fun _ _ _ => Err error_timeout;
     get_format_instructions := fun _ => u "Return JSON.";
     parser_de := fun _ => parser_rechaza |}.

(** A template that names one placeholder twice. *)
Definition plantilla_repetida : list parte :=
  [Texto (u "Compare "); Campo (u "a"); Texto (u " with "); Campo (u "b");
   Texto (u " and again "); Campo (u "a")].

(** A template with a placeholder of the call and the placeholder of the
    format instructions. *)
Definition plantilla_instrucciones : list parte :=
  [Texto (u "Label: "); Campo (u "kw"); Texto [nl];
   Campo (u "format_instructions")].

End Ejemplos2.

(** * Properties *)

Unset Implicit Arguments.

(** ** The retry loop *)

Section BucleProps.

Variable lib : Biblioteca.
Variable T : Type.
Variable self : RobustStructuredChain T.
Variable input_data : dict.
Variable default_value : option pyval.
Variable retries : nat.

(** If every iteration that starts in a state satisfying the invariant
    fails with an error that is not a quota error, and recording the
    failure restores the invariant for the next iteration, the loop runs
    to its end. *)
Lemma bucle_agota (I : nat -> estado -> Prop) :
  (forall i st, I i st ->
     exists e st',
       cuerpo lib self input_data default_value st = (Err e, st')
       /\ is_openai_quota_error lib e = false
       /\ I (S i) (registrar_fallo retries i e st')) ->
  forall pendientes i st, I i st ->
    exists st_f,
      bucle lib self input_data default_value retries pendientes i st
        = inr st_f
      /\ I (pendientes + i) st_f.
Proof.
  intros Hpaso pendientes.
  induction pendientes as [|p IH]; intros i st Hi; simpl.
  - exists st. split; [reflexivity | exact Hi].
  - destruct (Hpaso i st Hi) as (e & st' & Hc & Hq & Hi').
    rewrite Hc, Hq.
    destruct (IH (S i) _ Hi') as (st_f & Hb & Hf).
    exists st_f. split; [exact Hb |].
    replace (S (p + i)) with (p + S i) by lia. exact Hf.
Qed.

End BucleProps.

(** ** [invoke] *)

Section InvokeProps.

Variable lib : Biblioteca.
Variable T : Type.
Variable self : RobustStructuredChain T.
Variable input_data : dict.

Lemma mas_uno n : n + 1 = S n.
Proof. lia. Qed.

(** C2.  When the prompt renders and the backend raises, at every call, an
    error that [is_openai_quota_error] accepts, [invoke] calls the backend
    exactly once, whatever the retry budget and the default, and raises
    [LLMQuotaExhaustedError] with the remediation message, chained to the
    backend's error. *)
Theorem quota_error_short_circuits
    (default_value : option pyval) (max_retries : option nat)
    (prompt_str : pystr) :
  format (prompt self) input_data = Ok prompt_str ->
  (forall n p, exists e,
      llm self n p = Err e /\ is_openai_quota_error lib e = true) ->
  exists e st,
    invoke lib self input_data default_value max_retries
      = (Lanza (LLMQuotaExhaustedError mensaje_quota e), st)
    /\ llm self 0 prompt_str = Err e
    /\ llamadas st = 1
    /\ traza st = [Llamada prompt_str].
Proof.
  intros Hf Hq.
  destruct (Hq 0 prompt_str) as (e & He & Hqe).
  exists e. eexists.
  unfold invoke. rewrite mas_uno. simpl.
  unfold cuerpo. rewrite Hf. simpl. rewrite He, Hqe.
  repeat split; reflexivity.
Qed.

(** C6.  When the prompt renders and every response of the backend is
    empty or made of whitespace, each iteration raises the
    empty-response [ValueError] before either parser is consulted, and the
    error is recorded and retried like any other; with [max_retries = 2] and
    no default the backend is called exactly three times and [invoke]
    raises [LLMRetryExhaustedError] built from that last error. *)
Theorem empty_responses_exhaust_retries (prompt_str : pystr) :
  format (prompt self) input_data = Ok prompt_str ->
  (forall n p, exists t, llm self n p = Ok t /\ strip t = []) ->
  is_openai_quota_error lib respuesta_vacia = false ->
  exists t st,
    llm self 2 prompt_str = Ok t
    /\ invoke lib self input_data None (Some 2)
       = (Lanza (LLMRetryExhaustedError 3 (Some respuesta_vacia)
                   (truncar_respuesta (Some t))), st)
    /\ llamadas st = 3
    /\ traza st
       = [Llamada prompt_str; Aviso 1 3 respuesta_vacia; Reintentando;
          Llamada prompt_str; Aviso 2 3 respuesta_vacia; Reintentando;
          Llamada prompt_str; Aviso 3 3 respuesta_vacia].
Proof.
  intros Hf Hv Hq.
  destruct (Hv 0 prompt_str) as (t0 & H0 & S0).
  destruct (Hv 1 prompt_str) as (t1 & H1 & S1).
  destruct (Hv 2 prompt_str) as (t2 & H2 & S2).
  exists t2. eexists.
  unfold invoke, reintentos. simpl.
  unfold cuerpo. rewrite Hf. simpl.
  rewrite H0, S0, Hq. simpl.
  rewrite H1, S1, Hq. simpl.
  rewrite H2, S2, Hq. simpl.
  unfold tras_bucle. simpl.
  repeat split; reflexivity.
Qed.

(** C10.  When the caller's default does not build (the model raises on
    it) and every iteration of the loop fails with an error that is not a
    quota error, [invoke] raises [LLMRetryExhaustedError] carrying the last
    of those errors: the error raised by the default is dropped and no
    value is returned. *)
Theorem invalid_default_is_discarded
    (d : pyval) (max_retries : option nat) (ev : exn) :
  pydantic_model self d = Err ev ->
  (forall st, exists e st',
      cuerpo lib self input_data (Some d) st = (Err e, st')
      /\ is_openai_quota_error lib e = false) ->
  exists ue ur st,
    invoke lib self input_data (Some d) max_retries
      = (Lanza (LLMRetryExhaustedError (reintentos self max_retries + 1)
                  (Some ue) ur), st)
    /\ is_openai_quota_error lib ue = false.
Proof.
  intros Hd Hfail.
  unfold invoke.
  set (retries := reintentos self max_retries).
  destruct (@bucle_agota lib T self input_data (Some d) retries
              (fun i st => 0 < i ->
                 exists ue, ultimo_error st = Some ue
                            /\ is_openai_quota_error lib ue = false))
    with (pendientes := retries + 1) (i := 0) (st := estado_inicial)
    as (st_f & Hb & Hi).
  - intros i st _. destruct (Hfail st) as (e & st' & Hc & Hq).
    exists e, st'. repeat split; auto.
    intros _. exists e. split; [reflexivity | exact Hq].
  - intros H. inversion H.
  - rewrite Hb. unfold tras_bucle. rewrite Hd.
    destruct Hi as (ue & Hue & Hq); [lia |].
    rewrite Hue. do 2 eexists. eexists. split; [reflexivity | exact Hq].
Qed.



(** The default is built after the loop when every call of the backend
    ends in an error that is not a quota error or in a blank response: then
    the backend is called [retries + 1] times. *)
Lemma default_after_failed_calls
    (d : pyval) (v : T) (max_retries : option nat) (prompt_str : pystr) :
  format (prompt self) input_data = Ok prompt_str ->
  (forall n p,
      (exists e, llm self n p = Err e
                 /\ is_openai_quota_error lib e = false)
      \/ (exists t, llm self n p = Ok t /\ strip t = [])) ->
  is_openai_quota_error lib respuesta_vacia = false ->
  pydantic_model self d = Ok v ->
  exists st,
    invoke lib self input_data (Some d) max_retries = (Retorna v, st)
    /\ llamadas st = reintentos self max_retries + 1.
Proof.
  intros Hf Hl Hq Hm.
  unfold invoke.
  set (retries := reintentos self max_retries).
  destruct (@bucle_agota lib T self input_data (Some d) retries
              (fun i st => llamadas st = i))
    with (pendientes := retries + 1) (i := 0) (st := estado_inicial)
    as (st_f & Hb & Hi).
  - intros i st Hi. unfold cuerpo. rewrite Hf. simpl.
    destruct (Hl (llamadas st) prompt_str) as [(e & He & Hqe)|(t & Ht & Hs)].
    + rewrite He. do 2 eexists. split; [reflexivity |].
      split; [exact Hqe |]. simpl. congruence.
    + rewrite Ht, Hs. do 2 eexists. split; [reflexivity |].
      split; [exact Hq |]. simpl. congruence.
  - reflexivity.
  - rewrite Hb. unfold tras_bucle. rewrite Hm.
    eexists. split; [reflexivity |]. simpl. lia.
Qed.

(** *** No waiting *)





(** *** Unbound placeholders *)

Lemma format_partes_unbound (vars : dict) (nombre : pystr) :
  forall partes,
    In (Campo nombre) partes ->
    dict_get nombre vars = None ->
    exists k,
      format_partes partes vars = Err (Exn KeyError k)
      /\ In (Campo k) partes
      /\ dict_get k vars = None.
Proof.
  induction partes as [|p r IH]; intros Hin Hget; [contradiction |].
  destruct Hin as [->|Hin].
  - simpl. rewrite Hget. exists nombre. auto.
  - destruct (IH Hin Hget) as (k & Hk & Hkin & Hkget).
    destruct p as [s|n]; simpl.
    + rewrite Hk. exists k. auto.
    + destruct (dict_get n vars) eqn:En.
      * rewrite Hk. exists k. auto.
      * exists n. auto.
Qed.

Lemma intentos_fallidos_registrar (retries i : nat) (e : exn) (st : estado) :
  intentos_fallidos (traza (registrar_fallo retries i e st))
  = S (intentos_fallidos (traza st)).
Proof.
  unfold intentos_fallidos, registrar_fallo. simpl.
  rewrite filter_app, length_app. simpl.
  destruct (Nat.ltb i retries); simpl; lia.
Qed.

Lemma llamadas_registrar (retries i : nat) (e : exn) (st : estado) :
  filter es_llamada (traza (registrar_fallo retries i e st))
  = filter es_llamada (traza st).
Proof.
  unfold registrar_fallo. simpl. rewrite filter_app. simpl.
  destruct (Nat.ltb i retries); simpl; apply app_nil_r.
Qed.

(** C4, as amended.  When the template holds a placeholder without a
    value, rendering raises [KeyError] inside every iteration, before the
    backend is called: the backend is never called and no prompt with an
    unfilled placeholder reaches it.  The [KeyError] is handled like the
    other failures that are not quota errors: all [retries + 1] iterations
    are spent on it, and then the default is returned if the model accepts
    it, otherwise [LLMRetryExhaustedError] is raised with the [KeyError] as
    its last error. *)
Theorem unbound_placeholder_spends_all_attempts
    (default_value : option pyval) (max_retries : option nat)
    (nombre : pystr) :
  In (Campo nombre) (template (prompt self)) ->
  dict_get nombre (input_data ++ partial_variables (prompt self)) = None ->
  (forall k, is_openai_quota_error lib (Exn KeyError k) = false) ->
  exists k,
    format (prompt self) input_data = Err (Exn KeyError k)
    /\ llamadas (snd (invoke lib self input_data default_value max_retries))
       = 0
    /\ filter es_llamada
         (traza (snd (invoke lib self input_data default_value max_retries)))
       = []
    /\ intentos_fallidos
         (traza (snd (invoke lib self input_data default_value max_retries)))
       = reintentos self max_retries + 1
    /\ fst (invoke lib self input_data default_value max_retries)
       = let agotado :=
           Lanza (LLMRetryExhaustedError (reintentos self max_retries + 1)
                    (Some (Exn KeyError k)) None) in
         match default_value with
         | Some d =>
             match pydantic_model self d with
             | Ok v => Retorna v
             | Err _ => agotado
             end
         | None => agotado
         end.
Proof.
  intros Hin Hget Hq.
  destruct (format_partes_unbound _ _ _ Hin Hget) as (k & Hk & _ & _).
  exists k. split; [exact Hk |].
  unfold invoke.
  set (retries := reintentos self max_retries).
  destruct (@bucle_agota lib T self input_data default_value retries
              (fun i st =>
                 llamadas st = 0
                 /\ ultima_respuesta st = None
                 /\ filter es_llamada (traza st) = []
                 /\ intentos_fallidos (traza st) = i
                 /\ (0 < i -> ultimo_error st = Some (Exn KeyError k))))
    with (pendientes := retries + 1) (i := 0) (st := estado_inicial)
    as (st_f & Hb & Hl & Hr & Hc & Ha & Hu).
  - intros i st (Hl & Hr & Hc & Ha & Hu).
    exists (Exn KeyError k), st. unfold cuerpo. unfold format in Hk.
    unfold format. rewrite Hk.
    split; [reflexivity |]. split; [apply Hq |].
    rewrite intentos_fallidos_registrar, llamadas_registrar.
    simpl. repeat split; auto.
  - simpl. repeat split; auto. intros H; inversion H.
  - rewrite Hb. unfold tras_bucle.
    rewrite Hu, Hr by lia.
    replace (retries + 1 + 0) with (retries + 1) in Ha by lia.
    destruct default_value as [d|]; simpl.
    + unfold intentos_fallidos in *.
      destruct (pydantic_model self d); simpl;
        rewrite !filter_app, ?length_app, Hc; simpl;
        repeat split; auto; lia.
    + repeat split; auto.
Qed.

End InvokeProps.

(** ** Evaluations of [invoke] *)

Section Escenario.

Import Ejemplos.

Lemma extraer_respuesta_label :
  extraer_json_de_respuesta respuesta_label = Some candidato_label.
Proof. vm_compute. reflexivity. Qed.

Lemma reparar_candidato_label (lib : Biblioteca) :
  reparar_json lib candidato_label = reparado_label.
Proof. vm_compute. reflexivity. Qed.

(** C7.  For a chain whose template is [Label: {kw}], called with
    [kw = beach, sunset], whose backend first answers with the fenced,
    single-quoted object: given that the LangChain parser rejects the
    response, that [json.loads] rejects the single-quoted candidate and reads
    the repaired one as the dictionary with [label = Beach Sunset], and that
    the model accepts that dictionary, [invoke] returns the model's value
    for it after one call of the backend; the candidate is the content of
    the fenced block and the repair turns its single quotes into double
    quotes. *)
Theorem label_scenario
    (lib : Biblioteca) (T : Type) (self : RobustStructuredChain T) (v : T)
    (e1 e2 : exn) (default_value : option pyval)
    (max_retries : option nat) :
  template (prompt self) = [Texto (u "Label: "); Campo (u "kw")] ->
  llm self 0 prompt_str_label = Ok respuesta_label ->
  parser self respuesta_label = Err e1 ->
  json_loads lib candidato_label = Err e2 ->
  es_JSONDecodeError e2 = true ->
  json_loads lib reparado_label = Ok (dict_label (u "Beach Sunset")) ->
  pydantic_model self (dict_label (u "Beach Sunset")) = Ok v ->
  exists st,
    invoke lib self vars_label default_value max_retries = (Retorna v, st)
    /\ llamadas st = 1
    /\ traza st = [Llamada prompt_str_label]
    /\ extraer_json_de_respuesta respuesta_label = Some candidato_label
    /\ reparar_json lib candidato_label = reparado_label.
Proof.
  intros Ht Hl Hp Hj1 He2 Hj2 Hm.
  assert (Hf : format (prompt self) vars_label = Ok prompt_str_label).
  { unfold format. rewrite Ht. reflexivity. }
  assert (Hparse : parsear_pydantic_seguro lib respuesta_label
                     (pydantic_model self) default_value = Ok (Some v)).
  { unfold parsear_pydantic_seguro, parsear_json_seguro.
    rewrite extraer_respuesta_label.
    change (respuesta_label) with (83%N :: tl respuesta_label).
    change (candidato_label) with (lbrace :: tl candidato_label) at 1.
    cbv iota beta.
    change (lbrace :: tl candidato_label) with candidato_label.
    rewrite Hj1. unfold intentar at 1. rewrite He2.
    rewrite reparar_candidato_label, Hj2. unfold intentar.
    unfold dict_label at 1. rewrite Hm. reflexivity. }
  eexists. unfold invoke. rewrite mas_uno. simpl bucle.
  unfold cuerpo. rewrite Hf. cbv zeta. simpl llamadas.
  rewrite Hl.
  replace (strip respuesta_label) with respuesta_label
    by (vm_compute; reflexivity).
  change (respuesta_label) with (83%N :: tl respuesta_label) at 1.
  cbv iota beta. rewrite Hp, Hparse.
  split; [reflexivity |]. split; [reflexivity |]. split; [reflexivity |].
  split; [apply extraer_respuesta_label | apply reparar_candidato_label].
Qed.

Lemma label_scenario_witness :
  exists st,
    invoke lib_label (cadena_dos (Ok respuesta_label) (Err error_timeout))
      vars_label None None
    = (Retorna (dict_label (u "Beach Sunset")), st)
    /\ llamadas st = 1
    /\ traza st = [Llamada prompt_str_label]
    /\ extraer_json_de_respuesta respuesta_label = Some candidato_label
    /\ reparar_json lib_label candidato_label = reparado_label.
Proof.
  apply (label_scenario lib_label pyval
           (cadena_dos (Ok respuesta_label) (Err error_timeout))
           (dict_label (u "Beach Sunset"))
           (Exn (OtherError (u "OutputParserException")) respuesta_label)
           (Exn JSONDecodeError (u "Expecting property name")) None None);
    reflexivity.
Defined.

Lemma quota_error_short_circuits_witness :
  exists e st,
    invoke lib_rechaza (cadena (Err error_quota)) vars_label None (Some 3)
    = (Lanza (LLMQuotaExhaustedError mensaje_quota e), st)
    /\ llm (cadena (Err error_quota)) 0 prompt_str_label = Err e
    /\ llamadas st = 1
    /\ traza st = [Llamada prompt_str_label].
Proof.
  apply (quota_error_short_circuits lib_rechaza pyval
           (cadena (Err error_quota)) vars_label None (Some 3)
           prompt_str_label).
  - reflexivity.
  - intros n p. exists error_quota. split; reflexivity.
Defined.

Lemma empty_responses_exhaust_retries_witness :
  exists t st,
    llm (cadena (Ok [])) 2 prompt_str_label = Ok t
    /\ invoke lib_rechaza (cadena (Ok [])) vars_label None (Some 2)
       = (Lanza (LLMRetryExhaustedError 3 (Some respuesta_vacia)
                   (truncar_respuesta (Some t))), st)
    /\ llamadas st = 3
    /\ traza st
       = [Llamada prompt_str_label; Aviso 1 3 respuesta_vacia; Reintentando;
          Llamada prompt_str_label; Aviso 2 3 respuesta_vacia; Reintentando;
          Llamada prompt_str_label; Aviso 3 3 respuesta_vacia].
Proof.
  apply (empty_responses_exhaust_retries lib_rechaza pyval (cadena (Ok []))
           vars_label prompt_str_label).
  - reflexivity.
  - intros n p. exists []. split; reflexivity.
  - reflexivity.
Defined.

Lemma invalid_default_is_discarded_witness :
  exists ue ur st,
    invoke lib_rechaza (cadena (Err error_timeout)) vars_label
      (Some default_invalido) (Some 2)
    = (Lanza (LLMRetryExhaustedError 3 (Some ue) ur), st)
    /\ is_openai_quota_error lib_rechaza ue = false.
Proof.
  apply (invalid_default_is_discarded lib_rechaza pyval
           (cadena (Err error_timeout)) vars_label default_invalido (Some 2)
           (Exn ValidationError (u "label: field required"))).
  - reflexivity.
  - intros st. do 2 eexists. split; reflexivity.
Defined.


Lemma unbound_placeholder_spends_all_attempts_witness :
  exists k,
    format prompt_label [] = Err (Exn KeyError k)
    /\ llamadas (snd (invoke lib_rechaza (cadena (Ok respuesta_label)) []
                        None (Some 2))) = 0
    /\ filter es_llamada
         (traza (snd (invoke lib_rechaza (cadena (Ok respuesta_label)) []
                        None (Some 2)))) = []
    /\ intentos_fallidos
         (traza (snd (invoke lib_rechaza (cadena (Ok respuesta_label)) []
                        None (Some 2)))) = 3
    /\ fst (invoke lib_rechaza (cadena (Ok respuesta_label)) [] None
              (Some 2))
       = Lanza (LLMRetryExhaustedError 3 (Some (Exn KeyError k)) None).
Proof.
  apply (unbound_placeholder_spends_all_attempts lib_rechaza pyval
           (cadena (Ok respuesta_label)) [] None (Some 2) (u "kw")).
  - simpl. right. left. reflexivity.
  - reflexivity.
  - intros k. reflexivity.
Defined.



(** C4 is false as stated: with the placeholder [kw] left without a value,
    two retries and a default that the schema accepts, the operation does
    not fail: the three iterations are spent on the [KeyError] and the
    default-built value is returned. *)
Lemma unbound_placeholder_fails_at_once_counterexample :
  fst (invoke lib_rechaza (cadena (Ok respuesta_label)) []
         (Some (dict_label (u "Tema"))) (Some 2))
  = Retorna (dict_label (u "Tema"))
  /\ intentos_fallidos
       (traza (snd (invoke lib_rechaza (cadena (Ok respuesta_label)) []
                      (Some (dict_label (u "Tema"))) (Some 2))))
     = 3
  /\ traza (snd (invoke lib_rechaza (cadena (Ok respuesta_label)) []
                   (Some (dict_label (u "Tema"))) (Some 2)))
     = [Aviso 1 3 (Exn KeyError (u "kw")); Reintentando;
        Aviso 2 3 (Exn KeyError (u "kw")); Reintentando;
        Aviso 3 3 (Exn KeyError (u "kw")); AvisoDefault].
Proof. repeat split; vm_compute; reflexivity. Qed.

End Escenario.

(** ** [RetryConfig.get_delay] *)

Section Backoff.

Local Open Scope Q_scope.




End Backoff.

(** ** The bracket scanner of [extraer_json_de_respuesta] *)

Lemma forallb_rev (q : char -> bool) (s : pystr) :
  forallb q (rev s) = forallb q s.
Proof.
  induction s as [|x s IH]; [reflexivity |].
  simpl. rewrite forallb_app, IH. simpl.
  rewrite andb_true_r. apply andb_comm.
Qed.

Section Escaner.

Lemma bc_fuera (c : char) (r : pystr) (i : nat) (nivel : Z) :
  tok_ok c = true ->
  cierre_llave (c :: r) i nivel false false
  = cierre_llave r (S i) nivel false false.
Proof.
  unfold tok_ok, plain_ok. intros H.
  repeat (apply andb_true_iff in H as [H ?]).
  repeat match goal with
         | H : negb _ = true |- _ => apply negb_true_iff in H
         end.
  unfold cierre_llave. simpl.
  repeat match goal with H : N.eqb _ _ = false |- _ => rewrite H; clear H end.
  reflexivity.
Qed.

Lemma bc_dentro (c : char) (r : pystr) (i : nat) (nivel : Z) :
  plain_ok c = true ->
  cierre_llave (c :: r) i nivel true false
  = cierre_llave r (S i) nivel true false.
Proof.
  unfold plain_ok. intros H.
  apply andb_true_iff in H as [H1 H2]. apply negb_true_iff in H1, H2.
  unfold cierre_llave. simpl. rewrite H2, H1. reflexivity.
Qed.

Lemma bc_escape (c : char) (r : pystr) (i : nat) (nivel : Z) (s : bool) :
  cierre_llave (bs :: c :: r) i nivel s false
  = cierre_llave r (S (S i)) nivel s false.
Proof. reflexivity. Qed.

Lemma bc_comilla (r : pystr) (i : nat) (nivel : Z) (s : bool) :
  cierre_llave (dq :: r) i nivel s false
  = cierre_llave r (S i) nivel (negb s) false.
Proof. reflexivity. Qed.

Lemma bc_abre (r : pystr) (i : nat) (nivel : Z) :
  cierre_llave (lbrace :: r) i nivel false false
  = cierre_llave r (S i) (nivel + 1) false false.
Proof. reflexivity. Qed.

Lemma bc_cierra (r : pystr) (i : nat) (nivel : Z) :
  cierre_llave (rbrace :: r) i nivel false false
  = if Z.eqb (nivel - 1) 0 then Some (S i)
    else cierre_llave r (S i) (nivel - 1) false false.
Proof. reflexivity. Qed.

Lemma scan_body (body : list sitem) :
  forallb sitem_ok body = true ->
  forall rest i nivel,
    cierre_llave (flat_map render_sitem body ++ rest) i nivel true false
    = cierre_llave rest (length (flat_map render_sitem body) + i)
        nivel true false.
Proof.
  induction body as [|it body IH]; intros Hok rest i nivel; [reflexivity |].
  simpl in Hok. apply andb_true_iff in Hok as [Hi Hb].
  destruct it as [c|c]; simpl flat_map; simpl app.
  - rewrite bc_dentro by exact Hi. rewrite IH by exact Hb.
    f_equal. simpl. lia.
  - rewrite bc_escape. rewrite IH by exact Hb. f_equal. simpl. lia.
Qed.

Lemma scan_node (n : jnode) :
  wf n = true ->
  forall rest i nivel, (1 <= nivel)%Z ->
    cierre_llave (render n ++ rest) i nivel false false
    = cierre_llave rest (length (render n) + i) nivel false false.
Proof.
  induction n as [c|body|inner IH] using jnode_rect';
    intros Hwf rest i nivel Hn.
  - simpl in Hwf. simpl render. simpl app. rewrite bc_fuera by exact Hwf.
    reflexivity.
  - simpl in Hwf. simpl render. simpl app.
    rewrite bc_comilla. simpl negb. rewrite <- app_assoc.
    rewrite scan_body by exact Hwf. simpl app.
    rewrite bc_comilla. simpl negb.
    f_equal. simpl. rewrite length_app. simpl. lia.
  - assert (Hin : forall rest i nivel, (1 <= nivel)%Z ->
              cierre_llave (flat_map render inner ++ rest) i nivel false false
              = cierre_llave rest (length (flat_map render inner) + i) nivel
                  false false).
    { clear rest i nivel Hn. simpl in Hwf.
      induction IH as [|x l Hx Hl IHl]; intros rest i nivel Hn;
        [reflexivity |].
      simpl in Hwf. apply andb_true_iff in Hwf as [Hwx Hwl].
      simpl flat_map. rewrite <- app_assoc. rewrite Hx by assumption.
      rewrite IHl by assumption. f_equal. rewrite length_app. lia. }
    simpl render. simpl app. rewrite bc_abre. rewrite <- app_assoc.
    rewrite Hin by lia. simpl app. rewrite bc_cierra.
    replace (nivel + 1 - 1)%Z with nivel by lia.
    destruct (Z.eqb_spec nivel 0) as [E|E]; [lia |].
    f_equal. simpl. rewrite length_app. simpl. lia.
Qed.

(** The scan of a rendered object that starts at depth zero ends right
    after the object's closing brace. *)
Lemma scan_object (inner : list jnode) (rest : pystr) (i : nat) :
  forallb wf inner = true ->
  cierre_llave (render (Obj inner) ++ rest) i 0 false false
  = Some (length (render (Obj inner)) + i).
Proof.
  intros Hwf.
  assert (Hin : forall l, forallb wf l = true ->
            forall rest i nivel, (1 <= nivel)%Z ->
              cierre_llave (flat_map render l ++ rest) i nivel false false
              = cierre_llave rest (length (flat_map render l) + i)
                  nivel false false).
  { induction l as [|x l IHl]; intros Hl rest' i' nivel Hn; [reflexivity |].
    simpl in Hl. apply andb_true_iff in Hl as [Hwx Hwl].
    simpl flat_map. rewrite <- app_assoc.
    rewrite scan_node by assumption.
    rewrite IHl by assumption. f_equal. rewrite length_app. lia. }
  simpl render. simpl app. rewrite bc_abre. rewrite <- app_assoc.
  rewrite Hin by (auto; lia). simpl app. rewrite bc_cierra.
  simpl. f_equal. rewrite length_app. simpl. lia.
Qed.

End Escaner.

(** ** Stripping *)

Lemma lstrip_by_app_stop (p : char -> bool) (a : pystr) (c : char)
    (b : pystr) :
  p c = false ->
  lstrip_by p (a ++ c :: b) = lstrip_by p a ++ c :: b.
Proof.
  intros Hc. induction a as [|x a IH]; simpl.
  - rewrite Hc. reflexivity.
  - destruct (p x); [exact IH | reflexivity].
Qed.

Lemma rstrip_by_app_stop (p : char -> bool) (a : pystr) (c : char)
    (b : pystr) :
  p c = false ->
  rstrip_by p (a ++ c :: b) = a ++ c :: rstrip_by p b.
Proof.
  intros Hc. unfold rstrip_by.
  rewrite rev_app_distr. simpl rev. rewrite <- app_assoc. simpl app.
  rewrite lstrip_by_app_stop by exact Hc.
  rewrite rev_app_distr. simpl rev. rewrite rev_involutive.
  rewrite <- app_assoc. reflexivity.
Qed.

Lemma forallb_lstrip_by (q p : char -> bool) (s : pystr) :
  forallb q s = true -> forallb q (lstrip_by p s) = true.
Proof.
  induction s as [|x s IH]; intros H; [reflexivity |].
  simpl. destruct (p x); [| exact H].
  simpl in H. apply andb_true_iff in H as [_ H]. exact (IH H).
Qed.

Lemma forallb_rstrip_by (q p : char -> bool) (s : pystr) :
  forallb q s = true -> forallb q (rstrip_by p s) = true.
Proof.
  intros H. unfold rstrip_by. rewrite forallb_rev.
  apply forallb_lstrip_by. rewrite forallb_rev. exact H.
Qed.

(** ** Searching *)

Lemma search_needs_first (p : char -> bool) (r : regex) :
  forall aft bef,
    forallb (fun c => negb (p c)) aft = true ->
    search (Seq (Chr p) r) bef aft = None.
Proof.
  induction aft as [|c aft IH]; intros bef H; [reflexivity |].
  simpl in H. apply andb_true_iff in H as [Hc H].
  apply negb_true_iff in Hc.
  simpl. unfold match_here. simpl. rewrite Hc.
  rewrite IH by exact H. reflexivity.
Qed.

Lemma buscar_markdown_sin_backtick (texto : pystr) :
  sin_caracter backtick texto = true ->
  buscar_markdown patrones_markdown texto = None.
Proof.
  intros H. unfold patrones_markdown, buscar_markdown.
  unfold patron_json, patron_bloque.
  change (lit (u "```")) with
    (fun last => Seq (Chr (just backtick))
                   (Seq (Chr (just backtick))
                      (Seq (Chr (just backtick)) last))).
  cbv beta.
  rewrite !search_needs_first by exact H. reflexivity.
Qed.

(** ** Finding *)

Lemma find_app_sin (c : char) (a b : pystr) :
  sin_caracter c a = true ->
  find c (a ++ b) = option_map (Nat.add (length a)) (find c b).
Proof.
  intros H. induction a as [|x a IH]; simpl.
  - destruct (find c b); reflexivity.
  - simpl in H. apply andb_true_iff in H as [Hx H].
    apply negb_true_iff in Hx. rewrite N.eqb_sym in Hx. rewrite Hx, (IH H).
    destruct (find c b); reflexivity.
Qed.

Lemma skipn_length_app (a b : pystr) : skipn (length a) (a ++ b) = b.
Proof. induction a; simpl; auto. Qed.

Lemma firstn_length_app (a b : pystr) : firstn (length a) (a ++ b) = a.
Proof. induction a; simpl; f_equal; auto. Qed.

Lemma extraer_directo_objeto (prefijo sufijo : pystr) (inner : list jnode) :
  forallb wf inner = true ->
  sin_caracter lbrace prefijo = true ->
  sin_caracter lbrack prefijo = true ->
  extraer_directo (prefijo ++ render (Obj inner) ++ sufijo)
  = Some (render (Obj inner)).
Proof.
  intros Hwf Hb Hk. unfold extraer_directo.
  rewrite (find_app_sin lbrace) by exact Hb.
  rewrite (find_app_sin lbrack) by exact Hk.
  simpl render. simpl app. simpl find.
  set (cuerpo_obj := flat_map render inner ++ [rbrace]).
  assert (Hscan :
    buscar_cierre lbrace rbrace
      (skipn (length prefijo) (prefijo ++ lbrace :: cuerpo_obj ++ sufijo))
      (length prefijo) 0 false false
    = Some (length (lbrace :: cuerpo_obj) + length prefijo)).
  { rewrite skipn_length_app.
    exact (scan_object inner sufijo (length prefijo) Hwf). }
  assert (Hslice :
    slice (length prefijo) (length (lbrace :: cuerpo_obj) + length prefijo)
      (prefijo ++ lbrace :: cuerpo_obj ++ sufijo)
    = lbrace :: cuerpo_obj).
  { unfold slice. rewrite skipn_length_app.
    replace (length (lbrace :: cuerpo_obj) + length prefijo - length prefijo)
      with (length (lbrace :: cuerpo_obj)) by lia.
    exact (firstn_length_app (lbrace :: cuerpo_obj) sufijo). }
  assert (Hlt : Nat.ltb (length prefijo)
                  (length (lbrace :: cuerpo_obj) + length prefijo) = true).
  { apply Nat.ltb_lt. simpl. lia. }
  destruct (find lbrack (cuerpo_obj ++ sufijo)) as [a|]; simpl option_map.
  - replace (length prefijo + 0) with (length prefijo) by lia.
    assert (Ho : Nat.ltb (length prefijo) (length prefijo + S a) = true)
      by (apply Nat.ltb_lt; lia).
    rewrite Ho. rewrite Hscan, Hlt, Hslice. reflexivity.
  - replace (length prefijo + 0) with (length prefijo) by lia.
    rewrite Hscan, Hlt, Hslice. reflexivity.
Qed.

(** C8.  Let the text hold an object of brace-balanced shape, whose
    strings may hold braces, brackets and escaped quotes, after a prefix
    without [{] and [[] and before any suffix, and let the text hold no
    backtick, so that no fenced block is found.  Then the extraction
    returns the whole object, from its opening brace to the matching
    closing brace: braces inside strings are not counted. *)
Theorem extraer_balanced_object
    (prefijo sufijo : pystr) (inner : list jnode) :
  forallb wf inner = true ->
  sin_caracter lbrace prefijo = true ->
  sin_caracter lbrack prefijo = true ->
  sin_caracter backtick (prefijo ++ render (Obj inner) ++ sufijo) = true ->
  extraer_json_de_respuesta (prefijo ++ render (Obj inner) ++ sufijo)
  = Some (render (Obj inner)).
Proof.
  intros Hwf Hb Hk Ht.
  unfold extraer_json_de_respuesta, strip, strip_by.
  assert (Hs :
    rstrip_by isspace
      (lstrip_by isspace (prefijo ++ render (Obj inner) ++ sufijo))
    = lstrip_by isspace prefijo ++ render (Obj inner)
        ++ rstrip_by isspace sufijo).
  { simpl render. simpl app.
    rewrite lstrip_by_app_stop by reflexivity.
    replace (lstrip_by isspace prefijo
             ++ lbrace :: (flat_map render inner ++ [rbrace]) ++ sufijo)
      with ((lstrip_by isspace prefijo ++ lbrace :: flat_map render inner)
            ++ rbrace :: sufijo)
      by (repeat (rewrite <- app_assoc; simpl); reflexivity).
    rewrite rstrip_by_app_stop by reflexivity.
    repeat (rewrite <- app_assoc; simpl). reflexivity. }
  rewrite Hs.
  assert (Hbt :
    sin_caracter backtick
      (lstrip_by isspace prefijo ++ render (Obj inner)
         ++ rstrip_by isspace sufijo) = true).
  { unfold sin_caracter in *. rewrite !forallb_app in *.
    apply andb_true_iff in Ht as [H1 Ht].
    apply andb_true_iff in Ht as [H2 H3].
    rewrite H2, (forallb_lstrip_by _ isspace _ H1),
      (forallb_rstrip_by _ isspace _ H3). reflexivity. }
  remember (lstrip_by isspace prefijo ++ render (Obj inner)
            ++ rstrip_by isspace sufijo) as t eqn:Et.
  destruct t as [|c r].
  { destruct (lstrip_by isspace prefijo); discriminate Et. }
  rewrite (buscar_markdown_sin_backtick _ Hbt), Et.
  apply extraer_directo_objeto; auto; apply forallb_lstrip_by; assumption.
Qed.

Lemma extraer_balanced_object_witness :
  render Ejemplos.objeto_llave = Ejemplos.texto_llave
  /\ extraer_json_de_respuesta
       (u "Here it is: " ++ render Ejemplos.objeto_llave ++ u " Done.")
     = Some Ejemplos.texto_llave.
Proof.
  split; [reflexivity |].
  apply (extraer_balanced_object (u "Here it is: ") (u " Done.")
           [Str [Plain 97%N]; Tok colon; Tok 32%N;
            Str [Plain 120%N; Plain rbrace; Plain 121%N]]);
    reflexivity.
Defined.

(** A backslash keeps a double quote from closing the string: in
    [{D a D: D x\D}y D}], where [D] stands for the double quote, the brace
    after the escaped quote is still inside the string. *)
Lemma extraer_escaped_quote_example :
  extraer_json_de_respuesta
    (u "Here it is: "
     ++ render (Obj [Str [Plain 97%N]; Tok colon; Tok 32%N;
                     Str [Plain 120%N; Escaped dq; Plain rbrace;
                          Plain 121%N]])
     ++ u " Done.")
  = Some (u "{" ++ quoted (u "a") ++ u ": "
          ++ quoted (u "x" ++ [bs; dq] ++ u "}y") ++ u "}").
Proof. vm_compute. reflexivity. Qed.

(** ** [reparar_json] *)

Section Matcher.

Variable q : char -> bool.





End Matcher.






Section RepararProps.

Variable lib : Biblioteca.


End RepararProps.





(** * Further properties *)

(** ** More on [invoke] *)


Section MasInvoke.

Variable lib : Biblioteca.
Variable T : Type.
Variable self : RobustStructuredChain T.
Variable input_data : dict.
Variable default_value : option pyval.

Lemma cuerpo_llamadas_traza (st : estado) :
  length (filter es_llamada (traza st)) = llamadas st ->
  let st' := snd (cuerpo lib self input_data default_value st) in
  length (filter es_llamada (traza st')) = llamadas st'
  /\ llamadas st <= llamadas st' <= S (llamadas st).
Proof.
  intros H. unfold cuerpo.
  destruct (format (prompt self) input_data) as [p|e]; simpl; [| lia].
  assert (H1 : length (filter es_llamada (traza st ++ [Llamada p]))
               = S (llamadas st)).
  { rewrite filter_app, length_app. simpl. lia. }
  destruct (llm self (llamadas st) p) as [texto|e]; simpl; [| lia].
  destruct (strip texto); simpl; [lia |].
  destruct (parser self texto); simpl; [lia |].
  destruct (parsear_pydantic_seguro lib texto (pydantic_model self)
              default_value) as [[w|]|e']; simpl; lia.
Qed.

Lemma bucle_llamadas (retries : nat) :
  forall pendientes intento st,
    length (filter es_llamada (traza st)) = llamadas st ->
    let st' :=
      match bucle lib self input_data default_value retries pendientes
              intento st with
      | inl (_, st') => st'
      | inr st' => st'
      end in
    length (filter es_llamada (traza st')) = llamadas st'
    /\ llamadas st' <= llamadas st + pendientes.
Proof.
  induction pendientes as [|p IH]; intros intento st H; simpl; [lia |].
  destruct (cuerpo_llamadas_traza st H) as [Hc Hl].
  destruct (cuerpo lib self input_data default_value st) as [[v|e] st'];
    simpl in Hc, Hl; simpl; [lia |].
  destruct (is_openai_quota_error lib e); simpl; [lia |].
  assert (Hr : length (filter es_llamada
                        (traza (registrar_fallo retries intento e st')))
               = llamadas (registrar_fallo retries intento e st')).
  { rewrite llamadas_registrar. exact Hc. }
  destruct (IH (S intento) (registrar_fallo retries intento e st') Hr)
    as [IH1 IH2].
  split; [exact IH1 |]. simpl in IH2. lia.
Qed.

Lemma invoke_llamadas_acotadas (max_retries : option nat) :
  let st := snd (invoke lib self input_data default_value max_retries) in
  llamadas st <= reintentos self max_retries + 1
  /\ length (filter es_llamada (traza st)) = llamadas st.
Proof.
  unfold invoke.
  pose proof (bucle_llamadas (reintentos self max_retries)
                (reintentos self max_retries + 1) 0 estado_inicial eq_refl)
    as H.
  simpl in H.
  destruct (bucle lib self input_data default_value
              (reintentos self max_retries)
              (reintentos self max_retries + 1) 0 estado_inicial)
    as [[r st]|st]; simpl; [lia |].
  unfold tras_bucle.
  destruct default_value as [d|]; simpl; [| lia].
  destruct (pydantic_model self d); simpl;
    rewrite filter_app, length_app; simpl; lia.
Qed.

(** The backend is never called more than [retries + 1] times, and the
    calls recorded in the trace are exactly the calls made. *)
Theorem invoke_calls_bounded (max_retries : option nat) :
  let st := snd (invoke lib self input_data default_value max_retries) in
  llamadas st <= reintentos self max_retries + 1
  /\ length (filter es_llamada (traza st)) = llamadas st.
Proof.
  exact (invoke_llamadas_acotadas max_retries).
Qed.

(** Iterations that all fail, as a prefix of the loop. *)
Lemma bucle_avanza (retries : nat) (I : nat -> estado -> Prop) :
  forall k m i st,
    (forall j st, i <= j < i + k -> I j st ->
       exists e st',
         cuerpo lib self input_data default_value st = (Err e, st')
         /\ is_openai_quota_error lib e = false
         /\ I (S j) (registrar_fallo retries j e st')) ->
    I i st ->
    exists st_f,
      bucle lib self input_data default_value retries (k + m) i st
      = bucle lib self input_data default_value retries m (k + i) st_f
      /\ I (k + i) st_f.
Proof.
  induction k as [|k IH]; intros m i st Hpaso Hi.
  - exists st. split; [reflexivity | exact Hi].
  - destruct (Hpaso i st) as (e & st' & Hc & Hq & Hi'); [lia | exact Hi |].
    simpl. rewrite Hc, Hq.
    destruct (IH m (S i) (registrar_fallo retries i e st')) as (st_f & Hb & Hf).
    + intros j st0 Hj. apply Hpaso. lia.
    + exact Hi'.
    + exists st_f. replace (S (k + i)) with (k + S i) by lia. auto.
Qed.

Variable prompt_str : pystr.
Hypothesis Hformat : format (prompt self) input_data = Ok prompt_str.

Lemma cuerpo_falla (n : nat) (e : exn) (st : estado) :
  intento_falla lib self default_value prompt_str n e ->
  llamadas st = n ->
  exists st',
    cuerpo lib self input_data default_value st = (Err e, st')
    /\ llamadas st' = S n.
Proof.
  intros Hf Hn. unfold cuerpo. rewrite Hformat, Hn. simpl.
  destruct Hf as [He|[(t & Ht & Hs & ->)|(t & e' & Ht & Hs & Hp & Hm)]].
  - rewrite He. eexists. split; reflexivity.
  - rewrite Ht, Hs. eexists. split; reflexivity.
  - rewrite Ht. destruct (strip t) eqn:Es; [congruence |].
    rewrite Hp.
    destruct Hm as [[Hm ->]|Hm]; rewrite Hm; eexists; split; reflexivity.
Qed.

Lemma cuerpo_devuelve (n : nat) (v : T) (st : estado) :
  intento_devuelve lib self default_value prompt_str n v ->
  llamadas st = n ->
  exists st',
    cuerpo lib self input_data default_value st = (Ok v, st')
    /\ llamadas st' = S n.
Proof.
  intros (t & Ht & Hs & Hv) Hn. unfold cuerpo. rewrite Hformat, Hn. simpl.
  rewrite Ht. destruct (strip t) eqn:Es; [congruence |].
  destruct Hv as [Hp|(e' & Hp & Hm)]; rewrite Hp; [| rewrite Hm];
    eexists; split; reflexivity.
Qed.

(** The state after [k] failed iterations. *)
Lemma bucle_fallos (retries k m : nat) :
  (forall n, n < k ->
     exists e, intento_falla lib self default_value prompt_str n e
               /\ is_openai_quota_error lib e = false) ->
  exists st_f,
    bucle lib self input_data default_value retries (k + m) 0 estado_inicial
    = bucle lib self input_data default_value retries m k st_f
    /\ llamadas st_f = k
    /\ (0 < k ->
        exists e, ultimo_error st_f = Some e
                  /\ intento_falla lib self default_value prompt_str
                       (k - 1) e).
Proof.
  intros Hf.
  destruct (bucle_avanza retries
              (fun i st =>
                 llamadas st = i
                 /\ (0 < i ->
                     exists e, ultimo_error st = Some e
                               /\ intento_falla lib self default_value
                                    prompt_str (i - 1) e))
              k m 0 estado_inicial) as (st_f & Hb & Hl & Hu).
  - intros j st Hj [Hl _].
    destruct (Hf j) as (e & He & Hq); [lia |].
    destruct (cuerpo_falla j e st He Hl) as (st' & Hc & Hl').
    exists e, st'. split; [exact Hc |]. split; [exact Hq |].
    split; [exact Hl' |].
    intros _. exists e. replace (S j - 1) with j by lia.
    split; [reflexivity | exact He].
  - split; [reflexivity |]. intros H; inversion H.
  - exists st_f. replace (k + 0) with k in * by lia. auto.
Qed.

(** After [k] failed attempts that are not quota errors, an attempt that
    yields a value ends [invoke]: the value is returned and the backend has
    been called [k + 1] times. *)
Theorem invoke_returns_first_success
    (max_retries : option nat) (k : nat) (v : T) :
  k <= reintentos self max_retries ->
  (forall n, n < k ->
     exists e, intento_falla lib self default_value prompt_str n e
               /\ is_openai_quota_error lib e = false) ->
  intento_devuelve lib self default_value prompt_str k v ->
  exists st,
    invoke lib self input_data default_value max_retries = (Retorna v, st)
    /\ llamadas st = k + 1.
Proof.
  intros Hk Hf Hv. unfold invoke.
  set (retries := reintentos self max_retries) in *.
  destruct (bucle_fallos retries k (S (retries - k)) Hf)
    as (st_f & Hb & Hl & _).
  replace (retries + 1) with (k + S (retries - k)) by lia.
  rewrite Hb. simpl.
  destruct (cuerpo_devuelve k v st_f Hv Hl) as (st' & Hc & Hl').
  rewrite Hc. exists st'. split; [reflexivity | lia].
Qed.

(** After [k] failed attempts that are not quota errors, a quota error
    ends [invoke] although attempts remain. *)
Theorem invoke_quota_after_failures
    (max_retries : option nat) (k : nat) (e : exn) :
  k <= reintentos self max_retries ->
  (forall n, n < k ->
     exists e, intento_falla lib self default_value prompt_str n e
               /\ is_openai_quota_error lib e = false) ->
  intento_falla lib self default_value prompt_str k e ->
  is_openai_quota_error lib e = true ->
  exists st,
    invoke lib self input_data default_value max_retries
    = (Lanza (LLMQuotaExhaustedError mensaje_quota e), st)
    /\ llamadas st = k + 1.
Proof.
  intros Hk Hf He Hq. unfold invoke.
  set (retries := reintentos self max_retries) in *.
  destruct (bucle_fallos retries k (S (retries - k)) Hf)
    as (st_f & Hb & Hl & _).
  replace (retries + 1) with (k + S (retries - k)) by lia.
  rewrite Hb. simpl.
  destruct (cuerpo_falla k e st_f He Hl) as (st' & Hc & Hl').
  rewrite Hc, Hq. exists st'. split; [reflexivity | lia].
Qed.

End MasInvoke.

Section MasInvoke2.

Variable lib : Biblioteca.
Variable T : Type.
Variable self : RobustStructuredChain T.
Variable input_data : dict.

(** When every attempt fails with an error that is not a quota error and
    the caller gave no default, the error raised counts [retries + 1]
    attempts and carries the error of the last one. *)
Theorem invoke_exhausted_reports_last_error
    (max_retries : option nat) (prompt_str : pystr) :
  format (prompt self) input_data = Ok prompt_str ->
  (forall n, n <= reintentos self max_retries ->
     exists e, intento_falla lib self None prompt_str n e
               /\ is_openai_quota_error lib e = false) ->
  exists ue ur st,
    invoke lib self input_data None max_retries
    = (Lanza (LLMRetryExhaustedError (reintentos self max_retries + 1)
                (Some ue) ur), st)
    /\ intento_falla lib self None prompt_str (reintentos self max_retries)
         ue
    /\ llamadas st = reintentos self max_retries + 1.
Proof.
  intros Hformat Hf. unfold invoke.
  set (retries := reintentos self max_retries) in *.
  destruct (bucle_fallos lib T self input_data None prompt_str Hformat
              retries (retries + 1) 0) as (st_f & Hb & Hl & Hu).
  { intros n Hn. apply Hf. lia. }
  replace (retries + 1 + 0) with (retries + 1) in Hb by lia.
  rewrite Hb. simpl. unfold tras_bucle.
  destruct Hu as (e & Hu & He); [lia |].
  rewrite Hu. replace (retries + 1 - 1) with retries in He by lia.
  do 3 eexists. split; [reflexivity |]. split; [exact He | exact Hl].
Qed.

Lemma bucle_salida (default_value : option pyval) (retries : nat) :
  forall pendientes intento st,
    match bucle lib self input_data default_value retries pendientes
            intento st with
    | inl (Retorna _, _) => True
    | inl (Lanza (LLMQuotaExhaustedError _ _), _) => True
    | inl (Lanza (LLMRetryExhaustedError _ _ _), _) => False
    | inr st' =>
        (0 < pendientes \/ ultimo_error st <> None) ->
        ultimo_error st' <> None
    end.
Proof.
  induction pendientes as [|p IH]; intros intento st; simpl.
  - intros [H|H]; [inversion H | exact H].
  - destruct (cuerpo lib self input_data default_value st) as [[v|e] st'];
      [exact I |].
    destruct (is_openai_quota_error lib e); [exact I |].
    specialize (IH (S intento) (registrar_fallo retries intento e st')).
    destruct (bucle lib self input_data default_value retries p (S intento)
                (registrar_fallo retries intento e st'))
      as [[[v|[m c|n u r]] s]|s];
      auto.
    intros _. apply IH. right. simpl. discriminate.
Qed.

Lemma truncar_respuesta_acotada (o : option pystr) (r : pystr) :
  truncar_respuesta o = Some r -> r <> [] /\ length r <= 300.
Proof.
  unfold truncar_respuesta. destruct o as [[|c t]|]; try discriminate.
  intros H.
  assert (E : r = firstn 300 (c :: t)) by congruence.
  rewrite E. split; [| apply firstn_le_length].
  intros Hnil. apply (f_equal (@length char)) in Hnil.
  rewrite length_firstn in Hnil. simpl length in Hnil. lia.
Qed.

(** Whenever [invoke] raises the retry-exhausted error, the error counts
    [retries + 1] attempts, names an underlying error, and its response
    excerpt, when present, is not empty and at most 300 characters long. *)
Theorem invoke_exhausted_shape
    (default_value : option pyval) (max_retries : option nat)
    (n : nat) (ue : option exn) (ur : option pystr) :
  fst (invoke lib self input_data default_value max_retries)
  = Lanza (LLMRetryExhaustedError n ue ur) ->
  n = reintentos self max_retries + 1
  /\ ue <> None
  /\ (forall r, ur = Some r -> r <> [] /\ length r <= 300).
Proof.
  unfold invoke.
  set (retries := reintentos self max_retries).
  pose proof (bucle_salida default_value retries (retries + 1) 0
                estado_inicial) as H.
  destruct (bucle lib self input_data default_value retries (retries + 1) 0
              estado_inicial) as [[[v|[m c|n' u r]] s]|s]; simpl;
    try discriminate; try contradiction.
  assert (Hu : ultimo_error s <> None) by (apply H; left; lia).
  assert (Hgen :
    Lanza (T:=T) (LLMRetryExhaustedError (retries + 1) (ultimo_error s)
             (truncar_respuesta (ultima_respuesta s)))
    = Lanza (LLMRetryExhaustedError n ue ur) ->
    n = retries + 1 /\ ue <> None
    /\ (forall r, ur = Some r -> r <> [] /\ length r <= 300)).
  { intros E. injection E as En Eu Er. subst n ue ur.
    split; [reflexivity |]. split; [exact Hu |].
    intros r Hr. exact (truncar_respuesta_acotada _ _ Hr). }
  unfold tras_bucle.
  destruct default_value as [d|]; simpl; [| exact Hgen].
  destruct (pydantic_model self d); simpl; [discriminate | exact Hgen].
Qed.

Lemma usar_default_falsy (modelo : pyval -> result T) (d : pyval) :
  truthy d = false ->
  usar_default modelo (Some d) = usar_default modelo None.
Proof. intros H. unfold usar_default. rewrite H. reflexivity. Qed.

(** A default that is false as a Python value, such as the empty
    dictionary, is not used by the parse. *)
Lemma parsear_pydantic_seguro_falsy
    (texto : pystr) (modelo : pyval -> result T) (d : pyval) :
  truthy d = false ->
  parsear_pydantic_seguro lib texto modelo (Some d)
  = parsear_pydantic_seguro lib texto modelo None.
Proof.
  intros H. unfold parsear_pydantic_seguro.
  rewrite (usar_default_falsy modelo d H). reflexivity.
Qed.

(** With a default that is false as a Python value but that the model
    accepts (the empty dictionary for a model whose fields all have
    defaults), the parse of each attempt ignores the default; when every
    response is unparsable the backend is called [retries + 1] times and the
    default-built value is returned after the loop. *)
Theorem invoke_falsy_default_after_exhaustion
    (d : pyval) (v : T) (max_retries : option nat) (prompt_str : pystr) :
  format (prompt self) input_data = Ok prompt_str ->
  truthy d = false ->
  pydantic_model self d = Ok v ->
  (forall n, n <= reintentos self max_retries ->
     exists t e',
       llm self n prompt_str = Ok t /\ strip t <> []
       /\ parser self t = Err e'
       /\ parsear_pydantic_seguro lib t (pydantic_model self) None = Ok None
       /\ is_openai_quota_error lib (no_se_pudo_parsear t) = false) ->
  exists st,
    invoke lib self input_data (Some d) max_retries = (Retorna v, st)
    /\ llamadas st = reintentos self max_retries + 1.
Proof.
  intros Hformat Ht Hm Hf. unfold invoke.
  set (retries := reintentos self max_retries) in *.
  destruct (bucle_fallos lib T self input_data (Some d) prompt_str Hformat
              retries (retries + 1) 0) as (st_f & Hb & Hl & _).
  { intros n Hn. destruct (Hf n) as (t & e' & Hll & Hs & Hp & Hn0 & Hq);
      [lia |].
    exists (no_se_pudo_parsear t). split; [| exact Hq].
    right. right. exists t, e'. repeat split; auto.
    left. split; [| reflexivity].
    rewrite parsear_pydantic_seguro_falsy by exact Ht. exact Hn0. }
  replace (retries + 1 + 0) with (retries + 1) in Hb by lia.
  rewrite Hb. simpl. unfold tras_bucle. rewrite Hm.
  eexists. split; [reflexivity | exact Hl].
Qed.





End MasInvoke2.

(** ** More on [get_delay] *)

Section MasBackoff.

Local Open Scope Q_scope.










End MasBackoff.

(** ** More on [extraer_json_de_respuesta] *)

(** *** What the extraction returns *)

Lemma buscar_markdown_empieza (texto : pystr) :
  forall patrones c,
    buscar_markdown patrones texto = Some c ->
    startswith lbrace c || startswith lbrack c = true.
Proof.
  induction patrones as [|p ps IH]; intros c H; simpl in H; [discriminate |].
  destruct (search p [] texto) as [[sk m]|]; [| exact (IH c H)].
  destruct (startswith lbrace (strip (group 1 (caps m)))
            || startswith lbrack (strip (group 1 (caps m)))) eqn:E;
    [| exact (IH c H)].
  inversion H; subst. exact E.
Qed.

Lemma find_skipn (c : char) :
  forall s i, find c s = Some i -> exists r, skipn i s = c :: r.
Proof.
  induction s as [|x s IH]; intros i H; simpl in H; [discriminate |].
  destruct (N.eqb x c) eqn:E.
  - inversion H; subst. apply N.eqb_eq in E. subst. simpl. eauto.
  - destruct (find c s) as [j|]; [| discriminate].
    inversion H; subst. simpl. apply IH. reflexivity.
Qed.

Lemma extraer_directo_empieza (texto c : pystr) :
  extraer_directo texto = Some c ->
  startswith lbrace c || startswith lbrack c = true.
Proof.
  unfold extraer_directo.
  assert (H : forall inicio ci cf,
            find ci texto = Some inicio ->
            match buscar_cierre ci cf (skipn inicio texto) inicio 0 false
                    false with
            | Some fin =>
                if Nat.ltb inicio fin
                then Some (slice inicio fin texto) else None
            | None => None
            end = Some c ->
            startswith ci c = true).
  { intros inicio ci cf Hf Hc.
    destruct (find_skipn ci texto inicio Hf) as [r Hr].
    destruct (buscar_cierre ci cf (skipn inicio texto) inicio 0 false false)
      as [fin|]; [| discriminate].
    destruct (Nat.ltb inicio fin) eqn:El; [| discriminate].
    apply Nat.ltb_lt in El. inversion Hc; subst. unfold slice. rewrite Hr.
    destruct (fin - inicio) as [|k] eqn:Ek; [lia |].
    simpl. apply N.eqb_refl. }
  destruct (find lbrace texto) as [o|] eqn:Eo;
    destruct (find lbrack texto) as [a|] eqn:Ea; try discriminate.
  - destruct (Nat.ltb o a); intros Hc.
    + rewrite (H _ _ _ Eo Hc). reflexivity.
    + rewrite (H _ _ _ Ea Hc). apply orb_true_r.
  - intros Hc. rewrite (H _ _ _ Eo Hc). reflexivity.
  - intros Hc. rewrite (H _ _ _ Ea Hc). apply orb_true_r.
Qed.

(** Whatever the response, a candidate returned by the extraction is not
    empty and starts with an opening brace or bracket. *)
Theorem extraer_candidate_starts_with_bracket (texto c : pystr) :
  extraer_json_de_respuesta texto = Some c ->
  startswith lbrace c || startswith lbrack c = true.
Proof.
  unfold extraer_json_de_respuesta.
  destruct (strip texto) as [|x t]; [discriminate |].
  destruct (buscar_markdown patrones_markdown (x :: t)) as [j|] eqn:E.
  - intros H. inversion H; subst.
    exact (buscar_markdown_empieza _ _ _ E).
  - apply extraer_directo_empieza.
Qed.

Lemma buscar_cierre_sin_cierre (ci cf : char) :
  forall resto i nivel en_string escape,
    sin_caracter cf resto = true ->
    buscar_cierre ci cf resto i nivel en_string escape = None.
Proof.
  induction resto as [|c r IH]; intros i nivel es esc H; [reflexivity |].
  simpl in H. apply andb_true_iff in H as [Hc H].
  apply negb_true_iff in Hc. rewrite N.eqb_sym in Hc.
  simpl. rewrite Hc.
  destruct esc; [apply IH; exact H |].
  destruct (N.eqb c bs); [apply IH; exact H |].
  destruct (N.eqb c dq); [apply IH; exact H |].
  destruct (negb es); [| apply IH; exact H].
  destruct (N.eqb c ci); apply IH; exact H.
Qed.

Lemma sin_caracter_skipn (c : char) (n : nat) :
  forall s, sin_caracter c s = true -> sin_caracter c (skipn n s) = true.
Proof.
  induction n as [|n IH]; intros s H; [exact H |].
  destruct s as [|x s]; [reflexivity |].
  simpl in H. apply andb_true_iff in H as [_ H]. simpl. exact (IH s H).
Qed.

(** A response without a fenced block and without any closing brace or
    bracket, such as a JSON document cut off before its end, yields no
    candidate. *)
Theorem extraer_unclosed_is_none (texto : pystr) :
  sin_caracter backtick texto = true ->
  sin_caracter rbrace texto = true ->
  sin_caracter rbrack texto = true ->
  extraer_json_de_respuesta texto = None.
Proof.
  intros Hb Hc Hk. unfold extraer_json_de_respuesta.
  assert (S : forall q, forallb q texto = true ->
              forallb q (strip texto) = true).
  { intros q Hq. unfold strip, strip_by.
    apply forallb_rstrip_by, forallb_lstrip_by. exact Hq. }
  pose proof (S _ Hb) as Hb'. pose proof (S _ Hc) as Hc'.
  pose proof (S _ Hk) as Hk'.
  destruct (strip texto) as [|x t]; [reflexivity |].
  rewrite (buscar_markdown_sin_backtick _ Hb').
  unfold extraer_directo.
  destruct (find lbrace (x :: t)) as [o|];
    destruct (find lbrack (x :: t)) as [a|]; try reflexivity;
    try destruct (Nat.ltb o a);
    rewrite buscar_cierre_sin_cierre;
    try reflexivity; apply sin_caracter_skipn; assumption.
Qed.

(** *** Fenced blocks *)

Section Estrella.

Variable p : char -> bool.

(** One step of the repetition of a character class. *)
Lemma run_star_chr (g : bool) (bef aft : pystr) (cs : list (nat * pystr))
    (k : mstate -> option mstate) :
  run (Star g (Chr p)) (MState bef aft cs) k
  = match aft with
    | [] => k (MState bef aft cs)
    | c :: rest =>
        let more :=
          if p c then run (Star g (Chr p)) (MState (c :: bef) rest cs) k
          else None in
        if g then orelse more (k (MState bef aft cs))
        else orelse (k (MState bef aft cs)) more
    end.
Proof.
  destruct aft as [|c rest]; [reflexivity |].
  cbn -[Nat.ltb]. destruct (p c); [| reflexivity].
  cbn -[Nat.ltb].
  replace (Nat.ltb (length rest) (S (length rest))) with true
    by (symmetry; apply Nat.ltb_lt; lia).
  reflexivity.
Qed.

(** A greedy repetition takes the whole run of characters of the class
    when the rest of the pattern matches after it. *)
Lemma run_star_greedy (k : mstate -> option mstate) (res : mstate)
    (rest : pystr) (cs : list (nat * pystr)) :
  match rest with [] => True | x :: _ => p x = false end ->
  forall ws bef,
    forallb p ws = true ->
    k (MState (rev ws ++ bef) rest cs) = Some res ->
    run (Star true (Chr p)) (MState bef (ws ++ rest) cs) k = Some res.
Proof.
  intros Hrest. induction ws as [|c ws IH]; intros bef Hws Hk.
  - simpl in Hk. rewrite run_star_chr. simpl app.
    destruct rest as [|x r]; [exact Hk |].
    simpl. rewrite Hrest. simpl. exact Hk.
  - simpl in Hws. apply andb_true_iff in Hws as [Hc Hws].
    simpl app. rewrite run_star_chr. cbv iota zeta beta. rewrite Hc.
    rewrite (IH (c :: bef)); [reflexivity | exact Hws |].
    simpl in Hk. rewrite <- app_assoc in Hk. exact Hk.
Qed.

End Estrella.

Lemma cierre_bloque_falla (k : mstate -> option mstate) (bef aft : pystr)
    (cs : list (nat * pystr)) (c : char) :
  N.eqb backtick c = false ->
  run cierre_bloque (MState bef (c :: aft) cs) k = None.
Proof.
  intros H. unfold cierre_bloque.
  change (lit (u "``") (Chr (just backtick)))
    with (Seq (Chr (just backtick))
            (Seq (Chr (just backtick)) (Chr (just backtick)))).
  cbn [run after]. unfold just at 1. rewrite H. reflexivity.
Qed.

(** The closing fence, after optional whitespace, cannot match where the
    first character that is not whitespace is not a backtick. *)
Lemma run_cierre_falla (k : mstate -> option mstate)
    (cs : list (nat * pystr)) :
  forall aft bef,
    match lstrip_by isspace aft with
    | [] => True
    | x :: _ => N.eqb backtick x = false
    end ->
    run (Star true (Chr isspace)) (MState bef aft cs)
      (fun st' => run cierre_bloque st' k) = None.
Proof.
  induction aft as [|c aft IH]; intros bef H; rewrite run_star_chr.
  - reflexivity.
  - cbv zeta. cbn [lstrip_by] in H.
    destruct (isspace c) eqn:Es.
    + rewrite IH by exact H. rewrite cierre_bloque_falla; [reflexivity |].
      destruct (N.eqb backtick c) eqn:Eb; [| reflexivity].
      apply N.eqb_eq in Eb. subst c. discriminate Es.
    + rewrite cierre_bloque_falla by exact H. reflexivity.
Qed.

(** A lazy repetition of any character stops at the first place where the
    rest of the pattern matches. *)
Lemma run_star_lazy (k : mstate -> option mstate) (res : mstate)
    (rest : pystr) (cs : list (nat * pystr)) :
  forall body bef,
    (forall s1 s2, body = s1 ++ s2 -> s2 <> [] ->
       k (MState (rev s1 ++ bef) (s2 ++ rest) cs) = None) ->
    k (MState (rev body ++ bef) rest cs) = Some res ->
    run (Star false (Chr any)) (MState bef (body ++ rest) cs) k = Some res.
Proof.
  induction body as [|c body IH]; intros bef Hf Hk.
  - simpl in Hk. rewrite run_star_chr. simpl app.
    destruct rest as [|x r]; [exact Hk |].
    cbv zeta. rewrite Hk. reflexivity.
  - simpl app. rewrite run_star_chr. cbv iota zeta beta.
    assert (H0 : k (MState bef (c :: body ++ rest) cs) = None).
    { apply (Hf [] (c :: body) eq_refl). discriminate. }
    rewrite H0. unfold any at 1. simpl orelse.
    apply IH.
    + intros s1 s2 E Hs2.
      specialize (Hf (c :: s1) s2). simpl in Hf.
      rewrite <- app_assoc in Hf. simpl in Hf.
      apply Hf; [rewrite E; reflexivity | exact Hs2].
    + simpl in Hk. rewrite <- app_assoc in Hk. exact Hk.
Qed.

Lemma search_skip (p : char -> bool) (r : regex) (st : mstate)
    (s : pystr) :
  forall pre bef,
    forallb (fun c => negb (p c)) pre = true ->
    match_here (Seq (Chr p) r) (rev pre ++ bef) s = Some st ->
    search (Seq (Chr p) r) bef (pre ++ s) = Some (pre, st).
Proof.
  induction pre as [|c pre IH]; intros bef Hp Hm.
  - change (rev [] ++ bef) with bef in Hm. simpl app.
    destruct s; cbn [search]; rewrite Hm; reflexivity.
  - simpl in Hp. apply andb_true_iff in Hp as [Hc Hp].
    apply negb_true_iff in Hc.
    simpl app. cbn [search].
    assert (H0 : match_here (Seq (Chr p) r) bef (c :: pre ++ s) = None).
    { unfold match_here. cbn [run after]. rewrite Hc. reflexivity. }
    rewrite H0.
    rewrite (IH (c :: bef)); [reflexivity | exact Hp |].
    cbn [rev] in Hm. rewrite <- app_assoc in Hm. exact Hm.
Qed.

Lemma run_lit (s : pystr) (r : regex) (k : mstate -> option mstate)
    (cs : list (nat * pystr)) :
  forall bef aft,
    run (lit s r) (MState bef (s ++ aft) cs) k
    = run r (MState (rev s ++ bef) aft cs) k.
Proof.
  unfold lit. induction s as [|c s IH]; intros bef aft; [reflexivity |].
  cbn [List.map seqs app run after before caps]. unfold just at 1.
  rewrite N.eqb_refl. rewrite IH. cbn [rev]. rewrite <- app_assoc.
  reflexivity.
Qed.

Lemma run_lit_ci (r : regex) (k : mstate -> option mstate)
    (cs : list (nat * pystr)) :
  forall clases s,
    Forall2 (fun cl c => one_of cl c = true) clases s ->
    forall bef aft,
      run (lit_ci clases r) (MState bef (s ++ aft) cs) k
      = run r (MState (rev s ++ bef) aft cs) k.
Proof.
  unfold lit_ci. induction 1 as [|cl c clases s Hc _ IH]; intros bef aft;
    [reflexivity |].
  cbn [List.map seqs app run after before caps]. rewrite Hc.
  rewrite IH. cbn [rev]. rewrite <- app_assoc. reflexivity.
Qed.

Lemma consumed_app (bef bef' body rest : pystr)
    (cs cs' : list (nat * pystr)) :
  consumed (MState bef (body ++ rest) cs) (MState bef' rest cs') = body.
Proof.
  unfold consumed. cbn [after]. rewrite length_app.
  replace (length body + length rest - length rest) with (length body)
    by lia.
  apply firstn_length_app.
Qed.

Lemma sufijo_no_vacio (c0 s1 s2 : pystr) (x : char) :
  c0 ++ [x] = s1 ++ s2 -> s2 <> [] ->
  exists s2', s2 = s2' ++ [x] /\ c0 = s1 ++ s2'.
Proof.
  intros E Hs2.
  destruct (exists_last Hs2) as (s2' & y & ->).
  rewrite app_assoc in E. apply app_inj_tail in E as [E1 E2].
  subst. eauto.
Qed.

(** The first pattern on a response with a fenced block tagged [json]. *)
Lemma search_patron_json (pre ws1 c0 ws2 post : pystr) (x : char) :
  sin_caracter backtick pre = true ->
  forallb isspace ws1 = true ->
  forallb isspace ws2 = true ->
  sin_caracter backtick (c0 ++ [x]) = true ->
  isspace x = false ->
  match c0 ++ [x] with y :: _ => isspace y = false | [] => True end ->
  exists st,
    search patron_json []
      (pre ++ u "```json" ++ ws1 ++ (c0 ++ [x]) ++ ws2 ++ u "```" ++ post)
    = Some (pre, st)
    /\ group 1 (caps st) = c0 ++ [x].
Proof.
  intros Hpre Hw1 Hw2 Hc Hx Hy.
  set (c := c0 ++ [x]) in *.
  set (fin := u "```" ++ post).
  eexists. split.
  - unfold patron_json.
    change (lit (u "```")) with
      (fun last => Seq (Chr (just backtick)) (lit (u "``") last)).
    cbv beta.
    apply search_skip; [exact Hpre |].
    unfold match_here.
    change (Seq (Chr (just backtick))
              (lit (u "``")
                 (lit_ci [[106; 74]; [115; 83; 383]; [111; 79]; [110; 78]]%N
                    (seqs [Star true (Chr isspace);
                           Group 1 (Star false (Chr any));
                           Star true (Chr isspace)]
                       (lit (u "``") (Chr (just backtick)))))))
      with (lit (u "```")
              (lit_ci [[106; 74]; [115; 83; 383]; [111; 79]; [110; 78]]%N
                 (seqs [Star true (Chr isspace);
                        Group 1 (Star false (Chr any));
                        Star true (Chr isspace)]
                    cierre_bloque))).
    change (u "```json" ++ ws1 ++ c ++ ws2 ++ fin)
      with (u "```" ++ u "json" ++ ws1 ++ c ++ ws2 ++ fin).
    rewrite run_lit.
    rewrite (run_lit_ci _ _ _
               [[106; 74]; [115; 83; 383]; [111; 79]; [110; 78]]%N
               (u "json")) by (repeat constructor).
    cbn [seqs run].
    apply run_star_greedy; [| exact Hw1 |].
    { subst c. destruct c0 as [|y t]; cbn [app] in *; [exact Hx | exact Hy]. }
    cbn [run before after caps].
    apply run_star_lazy.
    + intros s1 s2 E Hs2. cbn [before after caps].
      apply run_cierre_falla.
      destruct (sufijo_no_vacio c0 s1 s2 x E Hs2) as (s2' & -> & ->).
      rewrite <- app_assoc. cbn [app].
      rewrite lstrip_by_app_stop by exact Hx.
      unfold sin_caracter in Hc. subst c.
      rewrite !forallb_app in Hc.
      apply andb_true_iff in Hc as [Hc Hxb].
      apply andb_true_iff in Hc as [_ Hs2'].
      pose proof (forallb_lstrip_by _ isspace _ Hs2') as Hl.
      destruct (lstrip_by isspace s2') as [|y l]; cbn [app].
      * simpl in Hxb. apply andb_true_iff in Hxb as [Hxb _].
        apply negb_true_iff in Hxb. exact Hxb.
      * simpl in Hl. apply andb_true_iff in Hl as [Hl _].
        apply negb_true_iff in Hl. exact Hl.
    + cbn [before after caps].
      apply run_star_greedy; [reflexivity | exact Hw2 |].
      unfold fin, cierre_bloque.
      change (u "```" ++ post) with (u "``" ++ backtick :: post).
      rewrite run_lit. cbn [run after before caps]. unfold just.
      rewrite N.eqb_refl. reflexivity.
  - cbn [caps group Nat.eqb]. apply consumed_app.
Qed.

(** A response that holds a block fenced with three backticks and tagged
    [json], after any text without backticks: when the content of the
    block holds no backtick, starts with a brace or bracket and does not
    end in whitespace, the extraction returns exactly that content, also
    when the text before the block holds braces or brackets. *)
Theorem extraer_fenced_json_block (pre ws1 c ws2 post : pystr) :
  sin_caracter backtick pre = true ->
  forallb isspace ws1 = true ->
  forallb isspace ws2 = true ->
  sin_caracter backtick c = true ->
  startswith lbrace c || startswith lbrack c = true ->
  isspace (last c nl) = false ->
  extraer_json_de_respuesta
    (pre ++ u "```json" ++ ws1 ++ c ++ ws2 ++ u "```" ++ post)
  = Some c.
Proof.
  intros Hpre Hw1 Hw2 Hc Hs Hl.
  assert (Hne : c <> []) by (destruct c; [discriminate | discriminate]).
  pose proof (app_removelast_last nl Hne) as Ec.
  set (c0 := removelast c) in *. set (x := last c nl) in *.
  assert (Hy : match c with y :: _ => isspace y = false | [] => True end).
  { destruct c as [|y t]; [exact I |]. simpl in Hs.
    apply orb_true_iff in Hs as [H|H]; apply N.eqb_eq in H; subst y;
      reflexivity. }
  unfold extraer_json_de_respuesta, strip, strip_by.
  set (mid := u "``json" ++ ws1 ++ c ++ ws2 ++ u "``").
  assert (Et : pre ++ u "```json" ++ ws1 ++ c ++ ws2 ++ u "```" ++ post
               = pre ++ backtick :: mid ++ backtick :: post).
  { unfold mid. cbn [u List.map list_ascii_of_string app].
    repeat (rewrite <- app_assoc; cbn [app]). reflexivity. }
  rewrite Et.
  rewrite lstrip_by_app_stop by reflexivity.
  replace (lstrip_by isspace pre ++ backtick :: mid ++ backtick :: post)
    with ((lstrip_by isspace pre ++ backtick :: mid) ++ backtick :: post)
    by (rewrite <- app_assoc; reflexivity).
  rewrite rstrip_by_app_stop by reflexivity.
  rewrite <- app_assoc. cbn [app].
  assert (Et' :
    lstrip_by isspace pre
    ++ backtick :: mid ++ backtick :: rstrip_by isspace post
    = lstrip_by isspace pre ++ u "```json" ++ ws1 ++ (c0 ++ [x]) ++ ws2
      ++ u "```" ++ rstrip_by isspace post).
  { rewrite <- Ec. unfold mid.
    cbn [u List.map list_ascii_of_string app].
    repeat (rewrite <- app_assoc; cbn [app]). reflexivity. }
  destruct (search_patron_json (lstrip_by isspace pre) ws1 c0 ws2
              (rstrip_by isspace post) x) as (st & Hsearch & Hg); auto.
  { apply forallb_lstrip_by. exact Hpre. }
  { rewrite <- Ec. exact Hc. }
  { rewrite <- Ec. exact Hy. }
  rewrite <- Et' in Hsearch.
  destruct (lstrip_by isspace pre ++ backtick :: mid
            ++ backtick :: rstrip_by isspace post) as [|t0 ts] eqn:E0.
  { destruct (lstrip_by isspace pre); discriminate E0. }
  unfold patrones_markdown. cbn [buscar_markdown].
  rewrite Hsearch, Hg, <- Ec.
  assert (Hstrip : strip c = c).
  { unfold strip, strip_by.
    assert (L : lstrip_by isspace c = c).
    { destruct c as [|y t]; [reflexivity |]. simpl. rewrite Hy.
      reflexivity. }
    rewrite L. unfold rstrip_by. rewrite Ec at 1.
    rewrite rev_app_distr. cbn [rev app lstrip_by]. fold x. rewrite Hl.
    change (x :: rev c0) with (rev [x] ++ rev c0).
    rewrite <- rev_app_distr, rev_involutive. symmetry. exact Ec. }
  rewrite Hstrip, Hs. reflexivity.
Qed.

(** ** The other retry loops *)


Section ManualProps.

Variable lib : Biblioteca.
Variable T : Type.
Variable llm : nat -> pystr -> result pystr.
Variable prompt : pystr.
Variable modelo : pyval -> result T.
Variable valores_default : option pyval.

Lemma bucle_manual_fallos (e : nat -> exn) :
  forall pendientes intento ue,
    (forall n, intento <= n < intento + pendientes ->
       cuerpo_manual lib llm prompt modelo valores_default n = Err (e n)) ->
    bucle_manual lib llm prompt modelo valores_default pendientes intento ue
    = inr (match pendientes with
           | O => ue
           | S p => Some (e (intento + p))
           end, intento + pendientes).
Proof.
  induction pendientes as [|p IH]; intros intento ue H; simpl.
  - f_equal. f_equal. lia.
  - rewrite H by lia. rewrite IH by (intros n Hn; apply H; lia).
    f_equal. f_equal; [| lia].
    destruct p; f_equal; f_equal; lia.
Qed.

Lemma bucle_manual_llamadas :
  forall pendientes intento ue,
    match bucle_manual lib llm prompt modelo valores_default pendientes
            intento ue with
    | inl (_, n) => intento < n <= intento + pendientes
    | inr (_, n) => n = intento + pendientes
    end.
Proof.
  induction pendientes as [|p IH]; intros intento ue; simpl; [lia |].
  destruct (cuerpo_manual lib llm prompt modelo valores_default intento);
    [lia |].
  specialize (IH (S intento) (Some e)).
  destruct (bucle_manual lib llm prompt modelo valores_default p (S intento)
              (Some e)) as [[r n]|[u n]]; lia.
Qed.

End ManualProps.

(** [invocar_llm_con_fallback_manual] has no quota short-circuit: when
    every call of the backend raises, whatever the errors are, the backend
    is called [max_retries + 1] times; without a usable default the error
    raised carries the error of the last call. *)
Theorem fallback_manual_retries_every_error
    (lib : Biblioteca) (T : Type) (llm : nat -> pystr -> result pystr)
    (prompt : pystr) (modelo : pyval -> result T) (max_retries : nat)
    (valores_default : option pyval) (e : nat -> exn) :
  (forall n, n <= max_retries -> llm n prompt = Err (e n)) ->
  match valores_default with
  | Some d => truthy d = false
  | None => True
  end ->
  invocar_llm_con_fallback_manual lib llm prompt modelo max_retries
    valores_default
  = (Falla (Agotado (max_retries + 1) (Some (e max_retries))),
     max_retries + 1).
Proof.
  intros Hl Hd. unfold invocar_llm_con_fallback_manual.
  rewrite (bucle_manual_fallos lib T llm prompt modelo valores_default e).
  - replace (max_retries + 1) with (S max_retries) by lia. simpl.
    destruct valores_default as [d|]; [rewrite Hd |]; reflexivity.
  - intros n Hn. unfold cuerpo_manual. rewrite Hl by lia. reflexivity.
Qed.

(** After the loop, [invocar_llm_con_fallback_manual] handles a default
    that does not build in two ways: a [ValidationError] becomes the
    retry-exhausted error chained to it, and any other exception of the
    model class is not caught. *)
Theorem fallback_manual_invalid_default
    (lib : Biblioteca) (T : Type) (llm : nat -> pystr -> result pystr)
    (prompt : pystr) (modelo : pyval -> result T) (max_retries : nat)
    (d : pyval) (e : nat -> exn) (ev : exn) :
  (forall n, n <= max_retries -> llm n prompt = Err (e n)) ->
  truthy d = true ->
  modelo d = Err ev ->
  invocar_llm_con_fallback_manual lib llm prompt modelo max_retries (Some d)
  = (Falla (if es_ValidationError ev then DefaultRechazado ev
            else Propagado ev), max_retries + 1).
Proof.
  intros Hl Ht Hm. unfold invocar_llm_con_fallback_manual.
  rewrite (bucle_manual_fallos lib T llm prompt modelo (Some d) e).
  - rewrite Ht, Hm. destruct (es_ValidationError ev); reflexivity.
  - intros n Hn. unfold cuerpo_manual. rewrite Hl by lia. reflexivity.
Qed.

(** The backend is called at least once and at most [max_retries + 1]
    times. *)
Theorem fallback_manual_calls_bounded
    (lib : Biblioteca) (T : Type) (llm : nat -> pystr -> result pystr)
    (prompt : pystr) (modelo : pyval -> result T) (max_retries : nat)
    (valores_default : option pyval) :
  1 <= snd (invocar_llm_con_fallback_manual lib llm prompt modelo
              max_retries valores_default) <= max_retries + 1.
Proof.
  unfold invocar_llm_con_fallback_manual.
  pose proof (bucle_manual_llamadas lib T llm prompt modelo valores_default
                (max_retries + 1) 0 None) as H.
  destruct (bucle_manual lib llm prompt modelo valores_default
              (max_retries + 1) 0 None) as [[r n]|[u n]]; simpl; [lia |].
  destruct valores_default as [d|]; simpl; [| lia].
  destruct (truthy d); simpl; [| lia].
  destruct (modelo d) as [v|ev]; simpl; [lia |].
  destruct (es_ValidationError ev); simpl; lia.
Qed.

(** *** [invocar_llm_con_retry] *)

Section RetryProps.

Variable R : Type.
Variable T : Type.
Variable chain : nat -> result (option R).
Variable modelo_pydantic : option (pyval -> result T).

Lemma bucle_retry_fallos (e : nat -> exn) :
  forall pendientes intento ue,
    (forall n, intento <= n < intento + pendientes ->
       cuerpo_retry chain modelo_pydantic n = Err (e n)) ->
    bucle_retry chain modelo_pydantic pendientes intento ue
    = inr (match pendientes with
           | O => ue
           | S p => Some (e (intento + p))
           end, intento + pendientes).
Proof.
  induction pendientes as [|p IH]; intros intento ue H; simpl.
  - f_equal. f_equal. lia.
  - rewrite H by lia. rewrite IH by (intros n Hn; apply H; lia).
    f_equal. f_equal; [| lia].
    destruct p; f_equal; f_equal; lia.
Qed.

End RetryProps.

(** With a model class, a chain that answers [None] is retried like a
    chain that raises: after [k] calls that raise or answer [None], the
    first other answer is returned, after [k + 1] calls. *)
Theorem retry_none_is_retried_with_model
    (R T : Type) (chain : nat -> result (option R))
    (modelo : pyval -> result T) (valores_default : option pyval)
    (max_retries k : nat) (r : R) :
  k <= max_retries ->
  (forall n, n < k -> chain n = Ok None \/ exists e, chain n = Err e) ->
  chain k = Ok (Some r) ->
  invocar_llm_con_retry chain max_retries (Some modelo) valores_default
  = (Devuelve (DeCadena T (Some r)), k + 1).
Proof.
  intros Hk Hf Hr. unfold invocar_llm_con_retry.
  replace (max_retries + 1) with (k + S (max_retries - k)) by lia.
  generalize (max_retries - k). intros m.
  assert (H : forall j i ue,
            (forall n, i <= n < i + j ->
               chain n = Ok None \/ exists e, chain n = Err e) ->
            chain (i + j) = Ok (Some r) ->
            bucle_retry chain (Some modelo) (j + S m) i ue
            = inl (Some r, S (i + j))).
  { induction j as [|j IH]; intros i ue Hfail Hok; simpl.
    - unfold cuerpo_retry. replace (i + 0) with i in Hok by lia.
      rewrite Hok. f_equal. f_equal. lia.
    - unfold cuerpo_retry at 1.
      destruct (Hfail i) as [Hn|[e He]]; [lia | rewrite Hn | rewrite He];
        (rewrite IH;
         [f_equal; f_equal; lia
         | intros n Hn'; apply Hfail; lia
         | replace (S i + j) with (i + S j) by lia; exact Hok]). }
  rewrite (H k 0 None); [f_equal; lia | intros n Hn; apply Hf; lia | exact Hr].
Qed.

(** Without a model class the first answer of the chain is returned as it
    is, even [None], and the default is never used: when every call raises,
    the retry-exhausted error is raised whatever [valores_default] is. *)
Theorem retry_without_model
    (R T : Type) (chain : nat -> result (option R))
    (valores_default : option pyval) (max_retries : nat) :
  (forall r, chain 0 = Ok r ->
     invocar_llm_con_retry (T:=T) chain max_retries None valores_default
     = (Devuelve (DeCadena T r), 1))
  /\ (forall e,
        (forall n, n <= max_retries -> chain n = Err (e n)) ->
        invocar_llm_con_retry (T:=T) chain max_retries None valores_default
        = (Falla (Agotado (max_retries + 1) (Some (e max_retries))),
           max_retries + 1)).
Proof.
  split.
  - intros r Hr. unfold invocar_llm_con_retry.
    replace (max_retries + 1) with (S max_retries) by lia. simpl.
    unfold cuerpo_retry. rewrite Hr. destruct r; reflexivity.
  - intros e He. unfold invocar_llm_con_retry.
    rewrite (bucle_retry_fallos R T chain None e).
    + replace (max_retries + 1) with (S max_retries) by lia. simpl.
      destruct valores_default; reflexivity.
    + intros n Hn. unfold cuerpo_retry. rewrite He by lia. reflexivity.
Qed.

(** *** [con_reintentos] *)

Section ReintentosProps.

Variable A : Type.
Variable func : nat -> result A.
Variable reintentable : exn -> bool.

Lemma bucle_reintentos_fallos
    (callback : nat -> exn -> option exn) (e : nat -> exn)
    (max_retries : nat) :
  (forall n, n <= max_retries ->
     func n = Err (e n) /\ reintentable (e n) = true) ->
  (forall n, n < max_retries -> callback (n + 1) (e n) = None) ->
  forall pendientes intento ue tr,
    intento + pendientes = max_retries + 1 ->
    0 < pendientes ->
    exists tr',
      bucle_reintentos func reintentable (Some callback) max_retries
        pendientes intento ue tr
      = (Falla (Agotado (max_retries + 1) (Some (e max_retries))), tr')
      /\ filter es_on_retry tr'
         = filter es_on_retry tr
           ++ avisos_on_retry e intento (max_retries - intento)
      /\ length (filter es_llama_func tr')
         = length (filter es_llama_func tr) + pendientes.
Proof.
  intros Hf Hc.
  induction pendientes as [|p IH]; intros intento ue tr Hsum Hpos;
    [inversion Hpos |].
  simpl. destruct (Hf intento) as [He Hr]; [lia |]. rewrite He, Hr.
  destruct (Nat.ltb intento max_retries) eqn:El.
  - apply Nat.ltb_lt in El. rewrite Hc by exact El.
    destruct (IH (S intento) (Some (e intento))
                ((tr ++ [LlamaFunc]) ++ [OnRetry (intento + 1) (e intento)]))
      as (tr' & Hb & Ho & Hn); [lia | lia |].
    exists tr'. split; [exact Hb |]. split.
    + rewrite Ho. rewrite !filter_app. simpl. rewrite app_nil_r.
      rewrite <- app_assoc. f_equal.
      replace (max_retries - intento) with (S (max_retries - S intento))
        by lia.
      reflexivity.
    + rewrite Hn. rewrite !filter_app, !length_app. simpl. lia.
  - apply Nat.ltb_ge in El.
    assert (p = 0) by lia. subst p.
    assert (intento = max_retries) by lia. subst intento.
    simpl. eexists. split; [reflexivity |]. split.
    + rewrite !filter_app. simpl. rewrite Nat.sub_diag. simpl.
      rewrite !app_nil_r. reflexivity.
    + rewrite !filter_app, !length_app. simpl. lia.
Qed.

End ReintentosProps.

(** When every call of the wrapped function raises a retryable exception
    and the callback returns, the function is called [max_retries + 1]
    times, the callback is called [max_retries] times, for the attempts
    numbered 1 to [max_retries], each with the error of its attempt, and
    not for the last failure; the error raised carries the last error. *)
Theorem con_reintentos_on_retry_calls
    (A : Type) (func : nat -> result A) (reintentable : exn -> bool)
    (callback : nat -> exn -> option exn) (config : RetryConfig)
    (e : nat -> exn) :
  (forall n, n <= max_retries config ->
     func n = Err (e n) /\ reintentable (e n) = true) ->
  (forall n, n < max_retries config -> callback (n + 1) (e n) = None) ->
  exists tr,
    con_reintentos (Some config) reintentable (Some callback) func
    = (Falla (Agotado (max_retries config + 1)
                (Some (e (max_retries config)))), tr)
    /\ filter es_on_retry tr = avisos_on_retry e 0 (max_retries config)
    /\ length (filter es_llama_func tr) = max_retries config + 1.
Proof.
  intros Hf Hc. unfold con_reintentos.
  destruct (bucle_reintentos_fallos A func reintentable callback e
              (max_retries config) Hf Hc (max_retries config + 1) 0 None [])
    as (tr & Hb & Ho & Hn); [lia | lia |].
  exists tr. split; [exact Hb |]. split.
  - rewrite Ho. simpl. rewrite Nat.sub_0_r. reflexivity.
  - rewrite Hn. reflexivity.
Qed.

(** An exception outside [excepciones_reintentables] is not retried:
    after [k] retryable failures, it leaves the wrapper as it is at the
    call that raises it, and the function has been called [k + 1] times. *)
Theorem con_reintentos_propagates
    (A : Type) (func : nat -> result A) (reintentable : exn -> bool)
    (on_retry : option (nat -> exn -> option exn))
    (config : RetryConfig) (e : nat -> exn) (k : nat) :
  k <= max_retries config ->
  (forall n, n < k ->
     func n = Err (e n) /\ reintentable (e n) = true
     /\ (forall cb, on_retry = Some cb -> cb (n + 1) (e n) = None)) ->
  func k = Err (e k) ->
  reintentable (e k) = false ->
  exists tr,
    con_reintentos (Some config) reintentable on_retry func
    = (Falla (Propagado (e k)), tr)
    /\ length (filter es_llama_func tr) = k + 1.
Proof.
  intros Hk Hf Hek Hr. unfold con_reintentos.
  set (m := max_retries config) in *.
  assert (H : forall j i ue tr,
            i + j = k ->
            exists tr',
              bucle_reintentos func reintentable on_retry m
                (j + S (m - k)) i ue tr
              = (Falla (Propagado (e k)), tr')
              /\ length (filter es_llama_func tr')
                 = length (filter es_llama_func tr) + j + 1).
  { induction j as [|j IH]; intros i ue tr Hij.
    - assert (i = k) by lia. subst i. simpl. rewrite Hek, Hr.
      eexists. split; [reflexivity |].
      rewrite filter_app, length_app. simpl. lia.
    - simpl. destruct (Hf i) as (He & Hre & Hcb); [lia |].
      rewrite He, Hre.
      assert (El : Nat.ltb i m = true) by (apply Nat.ltb_lt; lia).
      rewrite El.
      destruct on_retry as [cb|] eqn:Eo.
      + rewrite (Hcb cb eq_refl).
        destruct (IH (S i) (Some (e i))
                    ((tr ++ [LlamaFunc]) ++ [OnRetry (i + 1) (e i)]))
          as (tr' & Hb & Hn); [lia |].
        exists tr'. split; [exact Hb |]. rewrite Hn.
        rewrite !filter_app, !length_app. simpl. lia.
      + destruct (IH (S i) (Some (e i))
                    ((tr ++ [LlamaFunc])
                     ++ [LogReintento (i + 1) (m + 1) (e i)]))
          as (tr' & Hb & Hn); [lia |].
        exists tr'. split; [exact Hb |]. rewrite Hn.
        rewrite !filter_app, !length_app. simpl. lia. }
  destruct (H k 0 None []) as (tr & Hb & Hn); [lia |].
  replace (m + 1) with (k + S (m - k)) by lia.
  exists tr. split; [exact Hb |]. rewrite Hn. simpl. lia.
Qed.

(** *** The loop of the summary and insight phases *)

Section FasesProps.

Variable lib : Biblioteca.
Variable cadena : nat -> result pystr.
Variable vacia : exn.

Lemma bucle_fase_resultado :
  forall pendientes intento s n,
    bucle_fase lib cadena vacia pendientes intento = (Ok s, n) ->
    (s = [] /\ n = intento + pendientes)
    \/ (strip s <> [] /\ exists m, m < n /\ cadena m = Ok s).
Proof.
  induction pendientes as [|p IH]; intros intento s n H; simpl in H.
  - inversion H; subst. left. split; [reflexivity | lia].
  - destruct (cadena intento) as [r|e] eqn:Ec.
    + destruct (strip r) eqn:Es.
      * destruct (is_openai_quota_error lib vacia); [discriminate |].
        destruct (IH _ _ _ H) as [[-> ->]|(Hs & m & Hm & Hc)].
        -- left. split; [reflexivity | lia].
        -- right. split; [exact Hs |]. exists m. auto.
      * inversion H; subst. right. split; [congruence |].
        exists intento. split; [lia | exact Ec].
    + destruct (is_openai_quota_error lib e); [discriminate |].
      destruct (IH _ _ _ H) as [[-> ->]|(Hs & m & Hm & Hc)].
      * left. split; [reflexivity | lia].
      * right. split; [exact Hs |]. exists m. auto.
Qed.

Lemma bucle_fase_error :
  forall pendientes intento e n,
    bucle_fase lib cadena vacia pendientes intento = (Err e, n) ->
    e = Exn (OtherError (u "RuntimeError")) mensaje_quota.
Proof.
  induction pendientes as [|p IH]; intros intento e n H; simpl in H;
    [discriminate |].
  destruct (match cadena intento with
            | Ok resultado =>
                match strip resultado with
                | [] => Err vacia
                | _ :: _ => Ok resultado
                end
            | Err e0 => Err e0
            end) as [r|e0]; [discriminate |].
  destruct (is_openai_quota_error lib e0); [congruence |].
  exact (IH _ _ _ H).
Qed.

End FasesProps.

(** The loop of the phases never raises the retry-exhausted error: it
    returns the empty string after [max_retries + 1] attempts, or a
    response of the chain that is not blank; the only exception it raises
    is the [RuntimeError] for a quota error. *)
Theorem fase_retry_returns_empty_or_response
    (lib : Biblioteca) (cadena : nat -> result pystr) (vacia : exn)
    (max_retries : nat) :
  match fase_invocar_llm_con_retry lib cadena vacia max_retries with
  | (Ok s, n) =>
      (s = [] /\ n = max_retries + 1)
      \/ (strip s <> [] /\ exists m, m < n /\ cadena m = Ok s)
  | (Err e, _) => e = Exn (OtherError (u "RuntimeError")) mensaje_quota
  end.
Proof.
  unfold fase_invocar_llm_con_retry.
  destruct (bucle_fase lib cadena vacia (max_retries + 1) 0) as [[s|e] n]
    eqn:E.
  - destruct (bucle_fase_resultado lib cadena vacia _ _ _ _ E) as [[-> ->]|H].
    + left. split; [reflexivity | lia].
    + right. exact H.
  - exact (bucle_fase_error lib cadena vacia _ _ _ _ E).
Qed.

(** ** The provider *)


Section ProveedorProps.

Variable lib : Biblioteca.
Variable cliente : Type.
Variable lc : Langchain cliente.

Lemma inicializar_backend_ok
    (crear : ConfigLLM -> result cliente) (validar : cliente -> result unit)
    (modulo paquete : pystr) (mensaje : exn -> pystr) (modo : pystr)
    (cfg : ConfigLLM) (llm0 l : option cliente)
    (evs : list evento_proveedor) :
  _inicializar_backend crear validar modulo paquete mensaje modo cfg llm0
  = (Ok tt, l, evs) ->
  exists c, l = Some c.
Proof.
  unfold _inicializar_backend.
  destruct (crear cfg) as [c|e]; [| discriminate].
  destruct (validar c); intros H; inversion H; subst; eauto.
Qed.

(** After a construction of the provider that succeeded in mode [api] or
    [local], a client is installed, and constructing the provider again or
    asking for the client builds nothing and probes nothing: the same
    client is returned. *)
Theorem provider_reuses_client
    (st st1 : estado_proveedor cliente) (evs : list evento_proveedor) :
  LLM_MODE (config st) = u "api" \/ LLM_MODE (config st) = u "local" ->
  LLMProvider lib lc st = (Ok tt, st1, evs) ->
  exists c,
    instancia st1 = Some (Some c)
    /\ LLMProvider lib lc st1 = (Ok tt, st1, [])
    /\ get_llm lib lc st1 = (Ok c, st1, []).
Proof.
  intros Hm H.
  assert (Hc : exists c, instancia st1 = Some (Some c)
                         /\ config st1 = config st).
  { unfold LLMProvider in H.
    destruct (match instancia st with Some l => l | None => None end)
      as [c|] eqn:El.
    - inversion H; subst. simpl. eauto.
    - destruct (_inicializar_llm lib lc (config st) None) as [[r l] e]
        eqn:Ei.
      inversion H; subst. simpl. clear H.
      unfold _inicializar_llm in Ei.
      destruct (validar_configuracion (config st)); [| discriminate].
      destruct Hm as [Hm|Hm]; rewrite Hm in Ei;
        (cbn in Ei;
         apply inicializar_backend_ok in Ei; destruct Ei as [c ->];
         eauto). }
  destruct Hc as (c & Hi & Hcfg). exists c.
  assert (Hp : LLMProvider lib lc st1 = (Ok tt, st1, [])).
  { unfold LLMProvider. rewrite Hi. destruct st1; simpl in *.
    subst. reflexivity. }
  split; [exact Hi |]. split; [exact Hp |].
  unfold get_llm. rewrite Hp, Hi. reflexivity.
Qed.

(** The client is stored before it is probed: when the probe of a fresh
    provider in mode [api] fails, the construction raises, but the client
    stays installed, and the next request for the client returns it
    without another probe. *)
Theorem provider_keeps_client_after_failed_probe
    (cfg : ConfigLLM) (c : cliente) (e : exn) :
  LLM_MODE cfg = u "api" ->
  validar_configuracion cfg = Ok true ->
  crear_openai lc cfg = Ok c ->
  sondear lc c = Err e ->
  exists e' st1,
    LLMProvider lib lc {| config := cfg; instancia := None |}
    = (Err e', st1, [Construye (u "api"); Sondea])
    /\ get_llm lib lc st1 = (Ok c, st1, []).
Proof.
  intros Hm Hv Hc Hs.
  unfold LLMProvider. simpl.
  unfold _inicializar_llm. rewrite Hv, Hm. cbn.
  unfold _inicializar_backend. rewrite Hc.
  unfold _validar_openai. rewrite Hs.
  destruct (is_openai_quota_error lib e);
    (do 2 eexists; split; [reflexivity |]; reflexivity).
Qed.

(** A quota error met by the start-up probe does not leave the provider
    as [LLMQuotaExhaustedError]: the initialiser catches it and raises
    [RuntimeError], with the quota message after the prefix of the
    initialiser. *)
Theorem provider_wraps_startup_quota_error
    (cfg : ConfigLLM) (c : cliente) (e : exn) :
  LLM_MODE cfg = u "api" ->
  validar_configuracion cfg = Ok true ->
  crear_openai lc cfg = Ok c ->
  sondear lc c = Err e ->
  is_openai_quota_error lib e = true ->
  fst (fst (LLMProvider lib lc {| config := cfg; instancia := None |}))
  = Err (runtime_error (u "Error al inicializar OpenAI: " ++ mensaje_quota)).
Proof.
  intros Hm Hv Hc Hs Hq.
  unfold LLMProvider. simpl.
  unfold _inicializar_llm. rewrite Hv, Hm. cbn.
  unfold _inicializar_backend. rewrite Hc.
  unfold _validar_openai. rewrite Hs, Hq. reflexivity.
Qed.

(** [cambiar_modo] drops the installed client and changes the mode before
    the new configuration is validated: switching to [api] without an API
    key raises the [ValueError] of the validation and leaves the provider
    in mode [api] without a client, so that the next request fails in the
    same way. *)
Theorem cambiar_modo_loses_client_on_invalid_config
    (st : estado_proveedor cliente) :
  OPENAI_API_KEY (config st) = None ->
  exists st1,
    cambiar_modo lib lc (u "api") st = (Err falta_api_key, st1, [])
    /\ LLM_MODE (config st1) = u "api"
    /\ instancia st1 = Some None
    /\ get_llm lib lc st1 = (Err falta_api_key, st1, []).
Proof.
  intros Hk. destruct st as [[m k om ou] inst]. simpl in Hk. subst k.
  eexists. split; [reflexivity |]. repeat split; reflexivity.
Qed.

Variable T : Type.
Variable sal : Salida cliente T.

(** [crear_chain_robusto] does not pass its [max_retries] on: whatever
    value it is given, the chain it builds has three retries, so an
    [invoke] without a [max_retries] of its own calls the backend at most
    four times. *)
Theorem crear_chain_robusto_ignores_max_retries
    (st st1 : estado_proveedor cliente) (plantilla : list parte)
    (modelo : pyval -> result T) (max_retries : nat) (kwargs : dict)
    (chain : RobustStructuredChain T) (evs : list evento_proveedor)
    (input_data : dict) (default_value : option pyval) :
  crear_chain_robusto lib lc sal st plantilla modelo max_retries kwargs
  = (Ok chain, st1, evs) ->
  chain_max_retries chain = 3
  /\ llamadas (snd (invoke lib chain input_data default_value None)) <= 4.
Proof.
  intros H.
  assert (Hc : chain_max_retries chain = 3).
  { unfold crear_chain_robusto in H.
    destruct (LLMProvider lib lc st) as [[[u0|e] s] ev]; [| discriminate].
    unfold crear_chain_estructurado_robusto in H.
    destruct (match instancia s with Some l => l | None => None end);
      [| discriminate].
    inversion H; subst. reflexivity. }
  split; [exact Hc |].
  pose proof (invoke_llamadas_acotadas lib T chain input_data default_value
                None)
    as Hb.
  simpl in Hb. unfold reintentos in Hb. rewrite Hc in Hb. lia.
Qed.

End ProveedorProps.

(** *** [_extraer_variables] *)

Section VariablesProps.

Variable lib : Biblioteca.

Lemma search_prefijo (p : char -> bool) (r : regex) (rest : pystr) :
  forall s bef,
    forallb (fun c => negb (p c)) s = true ->
    search (Seq (Chr p) r) bef (s ++ rest)
    = match search (Seq (Chr p) r) (rev s ++ bef) rest with
      | Some (sk, st) => Some (s ++ sk, st)
      | None => None
      end.
Proof.
  induction s as [|c s IH]; intros bef H.
  - simpl. destruct (search (Seq (Chr p) r) bef rest) as [[sk st]|];
      reflexivity.
  - simpl in H. apply andb_true_iff in H as [Hc H].
    apply negb_true_iff in Hc.
    simpl app. cbn [search].
    assert (H0 : match_here (Seq (Chr p) r) bef (c :: s ++ rest) = None).
    { unfold match_here. cbn [run after]. rewrite Hc. reflexivity. }
    rewrite H0, (IH (c :: bef) H). cbn [rev]. rewrite <- app_assoc.
    cbn [app].
    destruct (search (Seq (Chr p) r) (rev s ++ c :: bef) rest)
      as [[sk st]|]; reflexivity.
Qed.

Lemma findall_from_prefijo (rest : pystr) (s : pystr) (bef : pystr)
    (fuel : nat) :
  sin_caracter lbrace s = true ->
  findall_from fuel (re_variable lib) bef (s ++ rest)
  = findall_from fuel (re_variable lib) (rev s ++ bef) rest.
Proof.
  intros H. destruct fuel as [|f]; [reflexivity |].
  cbn [findall_from]. unfold re_variable. cbn [seqs].
  rewrite search_prefijo by exact H.
  destruct (search _ (rev s ++ bef) rest) as [[sk st]|]; reflexivity.
Qed.

Lemma match_variable (nombre rest bef : pystr) :
  nombre <> [] ->
  forallb (es_palabra lib) nombre = true ->
  match_here (re_variable lib) bef (lbrace :: nombre ++ rbrace :: rest)
  = Some (MState (rbrace :: rev nombre ++ lbrace :: bef) rest
            [(1, nombre)]).
Proof.
  intros Hne Hw. destruct nombre as [|c n]; [congruence |]. clear Hne.
  simpl in Hw. apply andb_true_iff in Hw as [Hc Hn].
  unfold match_here, re_variable. cbn [seqs].
  remember (Star true (Chr (es_palabra lib))) as star eqn:Hstar.
  cbn [run after before caps app].
  unfold just at 1. rewrite N.eqb_refl. rewrite Hc. subst star.
  apply (run_star_greedy (es_palabra lib)) with (rest := rbrace :: rest);
    [reflexivity | exact Hn |].
  cbn [run after before caps]. unfold just. rewrite N.eqb_refl.
  f_equal. f_equal.
  - cbn [rev]. rewrite <- app_assoc. reflexivity.
  - f_equal. f_equal.
    exact (consumed_app (lbrace :: bef) _ (c :: n) (rbrace :: rest) [] []).
Qed.

Lemma findall_from_partes :
  forall partes fuel bef,
    forallb (parte_simple lib) partes = true ->
    n_campos partes < fuel ->
    findall_from fuel (re_variable lib) bef (plantilla_texto partes)
    = nombres partes.
Proof.
  induction partes as [|p ps IH]; intros fuel bef Hs Hf.
  - destruct fuel as [|f]; [inversion Hf |]. reflexivity.
  - simpl in Hs. apply andb_true_iff in Hs as [Hp Hs].
    destruct p as [s|nombre].
    + cbn [plantilla_texto flat_map nombres app].
      fold (plantilla_texto ps). fold (nombres ps).
      rewrite findall_from_prefijo by exact Hp.
      apply IH; [exact Hs | exact Hf].
    + cbn [plantilla_texto flat_map nombres app].
      fold (plantilla_texto ps). fold (nombres ps).
      destruct fuel as [|f]; [inversion Hf |].
      cbn [findall_from].
      simpl in Hp.
      assert (Hm : match_here (re_variable lib) bef
                     (lbrace :: nombre ++ rbrace :: plantilla_texto ps)
                   = Some (MState (rbrace :: rev nombre ++ lbrace :: bef)
                             (plantilla_texto ps) [(1, nombre)])).
      { apply match_variable; destruct nombre; congruence. }
      rewrite <- app_assoc. cbn [app].
      cbn [search]. rewrite Hm. cbn [caps group Nat.eqb before after].
      f_equal. apply IH; [exact Hs |]. simpl in Hf. lia.
Qed.

Lemma n_campos_length (partes : list parte) :
  n_campos partes <= length (plantilla_texto partes).
Proof.
  induction partes as [|[s|n] ps IH]; simpl; [lia | |].
  - rewrite length_app. lia.
  - rewrite length_app. simpl. lia.
Qed.

Lemma In_nombres (partes : list parte) (nombre : pystr) :
  In nombre (nombres partes) <-> In (Campo nombre) partes.
Proof.
  induction partes as [|[s|n] ps IH]; simpl.
  - tauto.
  - rewrite IH. split; [auto | intros [H|H]; [discriminate | exact H]].
  - rewrite IH. split; intros [H|H]; auto; left; congruence.
Qed.

(** For a template whose literal text holds no opening brace and whose
    placeholders are named by words, [_extraer_variables] returns the
    names of the placeholders and nothing else, each once. *)
Theorem extraer_variables_finds_placeholders
    (partes : list parte) (nombre : pystr) :
  forallb (parte_simple lib) partes = true ->
  (In nombre (_extraer_variables lib (plantilla_texto partes))
   <-> In (Campo nombre) partes)
  /\ NoDup (_extraer_variables lib (plantilla_texto partes)).
Proof.
  intros Hs. unfold _extraer_variables, findall.
  rewrite findall_from_partes;
    [| exact Hs | pose proof (n_campos_length partes); lia].
  split; [| apply NoDup_nodup].
  rewrite nodup_In. apply In_nombres.
Qed.

End VariablesProps.

(** *** [crear_chain_estructurado_robusto] *)

Lemma dict_get_app (k : pystr) (a b : dict) :
  dict_get k (a ++ b)
  = match dict_get k a with
    | Some v => Some v
    | None => dict_get k b
    end.
Proof.
  induction a as [|[k' v] a IH]; simpl; [reflexivity |].
  destruct (str_eqb k k'); [reflexivity | exact IH].
Qed.

Lemma format_partes_bound (vars : dict) :
  forall partes,
    (forall nombre, In (Campo nombre) partes -> dict_get nombre vars <> None) ->
    exists s, format_partes partes vars = Ok s.
Proof.
  induction partes as [|p r IH]; intros H; simpl; [eexists; reflexivity |].
  destruct IH as [t Ht]; [intros n Hn; apply H; right; exact Hn |].
  rewrite Ht. destruct p as [s|n]; [eexists; reflexivity |].
  destruct (dict_get n vars) eqn:En; [eexists; reflexivity |].
  exfalso. apply (H n); [left; reflexivity | exact En].
Qed.

Section CadenaProps.

Variable cliente : Type.
Variable T : Type.
Variable sal : Salida cliente T.

(** A chain built by [crear_chain_estructurado_robusto] always has a value
    for [format_instructions]: the caller's when one was passed, the
    parser's otherwise.  So the prompt renders as soon as every other
    placeholder is named by the builder's keyword arguments or by the
    input of the call. *)
Theorem chain_binds_format_instructions
    (c : cliente) (plantilla : list parte) (modelo : pyval -> result T)
    (kwargs input_data : dict) (chain : RobustStructuredChain T) :
  crear_chain_estructurado_robusto sal (Some c) plantilla modelo kwargs
  = Ok chain ->
  (forall nombre,
     In (Campo nombre) plantilla ->
     nombre = u "format_instructions"
     \/ dict_get nombre (input_data ++ kwargs) <> None) ->
  dict_get (u "format_instructions") (partial_variables (prompt chain))
  = Some match dict_get (u "format_instructions") kwargs with
         | Some v => v
         | None => get_format_instructions sal modelo
         end
  /\ exists s, format (prompt chain) input_data = Ok s.
Proof.
  intros Hc Hp. unfold crear_chain_estructurado_robusto in Hc.
  injection Hc as <-. cbn [prompt partial_variables template].
  set (kw := match dict_get (u "format_instructions") kwargs with
             | Some _ => kwargs
             | None => kwargs ++ [(u "format_instructions",
                                   get_format_instructions sal modelo)]
             end).
  assert (Hfi : dict_get (u "format_instructions") kw
                = Some match dict_get (u "format_instructions") kwargs with
                       | Some v => v
                       | None => get_format_instructions sal modelo
                       end).
  { unfold kw. destruct (dict_get (u "format_instructions") kwargs) eqn:E.
    - exact E.
    - rewrite dict_get_app, E. reflexivity. }
  assert (Hkw : forall k, dict_get k kwargs <> None -> dict_get k kw <> None).
  { intros k Hk. unfold kw.
    destruct (dict_get (u "format_instructions") kwargs); [exact Hk |].
    rewrite dict_get_app. destruct (dict_get k kwargs); congruence. }
  split; [exact Hfi |].
  unfold format. cbn [prompt partial_variables template].
  apply format_partes_bound. intros nombre Hin.
  rewrite dict_get_app.
  destruct (dict_get nombre input_data) eqn:Ei; [discriminate |].
  destruct (Hp nombre Hin) as [-> | Hb].
  - fold kw. rewrite Hfi. discriminate.
  - rewrite dict_get_app, Ei in Hb. apply Hkw. exact Hb.
Qed.

End CadenaProps.

(** ** Evaluations at concrete inputs *)

Section Evaluaciones.

Import Ejemplos Ejemplos2.

Lemma invoke_returns_first_success_witness :
  exists st,
    invoke lib_label (cadena_dos (Err error_timeout) (Ok respuesta_label))
      vars_label None (Some 2)
    = (Retorna (dict_label (u "Beach Sunset")), st)
    /\ llamadas st = 1 + 1.
Proof.
  apply (invoke_returns_first_success lib_label pyval
           (cadena_dos (Err error_timeout) (Ok respuesta_label)) vars_label
           None prompt_str_label eq_refl (Some 2) 1
           (dict_label (u "Beach Sunset"))).
  - simpl. lia.
  - intros n Hn. exists error_timeout. split; [| reflexivity].
    left. destruct n; [reflexivity | lia].
  - exists respuesta_label. split; [reflexivity |].
    split; [vm_compute; discriminate |].
    right. eexists. split; [reflexivity |]. vm_compute. reflexivity.
Defined.

Lemma invoke_quota_after_failures_witness :
  exists st,
    invoke lib_rechaza (cadena_dos (Err error_timeout) (Err error_quota))
      vars_label None (Some 3)
    = (Lanza (LLMQuotaExhaustedError mensaje_quota error_quota), st)
    /\ llamadas st = 1 + 1.
Proof.
  apply (invoke_quota_after_failures lib_rechaza pyval
           (cadena_dos (Err error_timeout) (Err error_quota)) vars_label
           None prompt_str_label eq_refl (Some 3) 1 error_quota).
  - simpl. lia.
  - intros n Hn. exists error_timeout. split; [| reflexivity].
    left. destruct n; [reflexivity | lia].
  - left. reflexivity.
  - reflexivity.
Defined.

Lemma invoke_exhausted_reports_last_error_witness :
  exists ue ur st,
    invoke lib_rechaza (cadena_dos (Err error_timeout) (Ok [])) vars_label
      None (Some 1)
    = (Lanza (LLMRetryExhaustedError (1 + 1) (Some ue) ur), st)
    /\ intento_falla lib_rechaza
         (cadena_dos (Err error_timeout) (Ok [])) None prompt_str_label 1 ue
    /\ llamadas st = 1 + 1.
Proof.
  apply (invoke_exhausted_reports_last_error lib_rechaza pyval
           (cadena_dos (Err error_timeout) (Ok [])) vars_label (Some 1)
           prompt_str_label eq_refl).
  intros n Hn. destruct n as [|n].
  - exists error_timeout. split; [left; reflexivity | reflexivity].
  - exists respuesta_vacia. split; [| reflexivity].
    right. left. exists []. repeat split; reflexivity.
Defined.

Lemma invoke_exhausted_shape_witness :
  3 = 2 + 1
  /\ Some error_timeout <> None
  /\ (forall r, @None pystr = Some r -> r <> [] /\ length r <= 300).
Proof.
  apply (invoke_exhausted_shape lib_rechaza pyval
           (cadena (Err error_timeout)) vars_label None (Some 2) 3
           (Some error_timeout) None).
  vm_compute. reflexivity.
Defined.

Lemma invoke_falsy_default_after_exhaustion_witness :
  exists st,
    invoke lib_rechaza (cadena_opcional (Ok (u "garbage"))) vars_label
      (Some (PyDict [])) (Some 2)
    = (Retorna (dict_label (u "Sin etiqueta")), st)
    /\ llamadas st = 2 + 1.
Proof.
  apply (invoke_falsy_default_after_exhaustion lib_rechaza pyval
           (cadena_opcional (Ok (u "garbage"))) vars_label (PyDict [])
           (dict_label (u "Sin etiqueta")) (Some 2) prompt_str_label
           eq_refl eq_refl eq_refl).
  intros n Hn. exists (u "garbage"). eexists.
  split; [reflexivity |]. split; [vm_compute; discriminate |].
  split; [reflexivity |]. split; vm_compute; reflexivity.
Defined.





Lemma extraer_candidate_starts_with_bracket_witness :
  startswith lbrace candidato_label || startswith lbrack candidato_label
  = true.
Proof.
  apply (extraer_candidate_starts_with_bracket respuesta_label
           candidato_label).
  vm_compute. reflexivity.
Defined.

Lemma extraer_unclosed_is_none_witness :
  extraer_json_de_respuesta (u "Here: {" ++ quoted (u "label") ++ u ": [1, 2")
  = None.
Proof.
  apply (extraer_unclosed_is_none
           (u "Here: {" ++ quoted (u "label") ++ u ": [1, 2"));
    reflexivity.
Defined.

Lemma extraer_fenced_json_block_witness :
  extraer_json_de_respuesta
    (u "Sure {here} it is: " ++ u "```json" ++ [nl] ++ candidato_label
     ++ [nl] ++ u "```" ++ u " Bye [now].")
  = Some candidato_label.
Proof.
  apply (extraer_fenced_json_block (u "Sure {here} it is: ") [nl]
           candidato_label [nl] (u " Bye [now]."));
    reflexivity.
Defined.

Lemma fallback_manual_retries_every_error_witness :
  invocar_llm_con_fallback_manual lib_rechaza (fun _ _ => Err error_quota)
    prompt_str_label modelo_label 2 None
  = (Falla (Agotado (2 + 1) (Some error_quota)), 2 + 1).
Proof.
  apply (fallback_manual_retries_every_error lib_rechaza pyval
           (fun _ _ => Err error_quota) prompt_str_label modelo_label 2 None
           (fun _ => error_quota)).
  - intros n Hn. reflexivity.
  - exact I.
Defined.

Lemma fallback_manual_invalid_default_witness :
  invocar_llm_con_fallback_manual lib_rechaza (fun _ _ => Err error_timeout)
    prompt_str_label modelo_label 2 (Some default_invalido)
  = (Falla (DefaultRechazado (Exn ValidationError (u "label: field required"))),
     2 + 1).
Proof.
  apply (fallback_manual_invalid_default lib_rechaza pyval
           (fun _ _ => Err error_timeout) prompt_str_label modelo_label 2
           default_invalido (fun _ => error_timeout)
           (Exn ValidationError (u "label: field required"))).
  - intros n Hn. reflexivity.
  - reflexivity.
  - reflexivity.
Defined.

Lemma retry_none_is_retried_with_model_witness :
  invocar_llm_con_retry chain_none_luego 3 (Some modelo_label) None
  = (Devuelve (DeCadena pyval (Some (u "ok"))), 1 + 1).
Proof.
  apply (retry_none_is_retried_with_model pystr pyval chain_none_luego
           modelo_label None 3 1 (u "ok")).
  - lia.
  - intros n Hn. left. destruct n; [reflexivity | lia].
  - reflexivity.
Defined.

Lemma con_reintentos_on_retry_calls_witness :
  exists tr,
    con_reintentos (Some (politica 30 true)) es_timeout
      (Some (fun _ _ => None)) (fun _ => Err (A:=pystr) error_timeout)
    = (Falla (Agotado (3 + 1) (Some error_timeout)), tr)
    /\ filter es_on_retry tr
       = [OnRetry 1 error_timeout; OnRetry 2 error_timeout;
          OnRetry 3 error_timeout]
    /\ length (filter es_llama_func tr) = 3 + 1.
Proof.
  apply (con_reintentos_on_retry_calls pystr (fun _ => Err error_timeout)
           es_timeout (fun _ _ => None) (politica 30 true)
           (fun _ => error_timeout)).
  - intros n Hn. split; reflexivity.
  - intros n Hn. reflexivity.
Defined.

Lemma con_reintentos_propagates_witness :
  exists tr,
    con_reintentos (Some (politica 30 true)) es_timeout None
      func_timeout_luego_tipo
    = (Falla (Propagado error_tipo), tr)
    /\ length (filter es_llama_func tr) = 1 + 1.
Proof.
  apply (con_reintentos_propagates pystr func_timeout_luego_tipo es_timeout
           None (politica 30 true)
           (fun n => match n with O => error_timeout | _ => error_tipo end)
           1).
  - simpl. lia.
  - intros n Hn. destruct n; [| lia].
    split; [reflexivity |]. split; [reflexivity |]. intros cb H.
    discriminate H.
  - reflexivity.
  - reflexivity.
Defined.

Lemma provider_reuses_client_witness :
  exists c,
    instancia
      {| config := config_api; instancia := Some (Some 0) |}
    = Some (Some c)
    /\ LLMProvider lib_rechaza (langchain_ejemplo 0)
         {| config := config_api; instancia := Some (Some 0) |}
       = (Ok tt, {| config := config_api; instancia := Some (Some 0) |}, [])
    /\ get_llm lib_rechaza (langchain_ejemplo 0)
         {| config := config_api; instancia := Some (Some 0) |}
       = (Ok c, {| config := config_api; instancia := Some (Some 0) |}, []).
Proof.
  apply (provider_reuses_client lib_rechaza nat (langchain_ejemplo 0)
           {| config := config_api; instancia := None |}
           {| config := config_api; instancia := Some (Some 0) |}
           [Construye (u "api"); Sondea]).
  - left. reflexivity.
  - reflexivity.
Defined.

Lemma provider_keeps_client_after_failed_probe_witness :
  exists e' st1,
    LLMProvider lib_rechaza (langchain_ejemplo 1)
      {| config := config_api; instancia := None |}
    = (Err e', st1, [Construye (u "api"); Sondea])
    /\ get_llm lib_rechaza (langchain_ejemplo 1) st1 = (Ok 1, st1, []).
Proof.
  apply (provider_keeps_client_after_failed_probe lib_rechaza nat
           (langchain_ejemplo 1) config_api 1 error_quota);
    reflexivity.
Defined.

Lemma provider_wraps_startup_quota_error_witness :
  fst (fst (LLMProvider lib_rechaza (langchain_ejemplo 1)
              {| config := config_api; instancia := None |}))
  = Err (runtime_error (u "Error al inicializar OpenAI: " ++ mensaje_quota)).
Proof.
  apply (provider_wraps_startup_quota_error lib_rechaza nat
           (langchain_ejemplo 1) config_api 1 error_quota);
    reflexivity.
Defined.

Lemma cambiar_modo_loses_client_on_invalid_config_witness :
  exists st1,
    cambiar_modo lib_rechaza (langchain_ejemplo 0) (u "api")
      {| config := config_local_sin_clave; instancia := Some (Some 0) |}
    = (Err falta_api_key, st1, [])
    /\ LLM_MODE (config st1) = u "api"
    /\ instancia st1 = Some None
    /\ get_llm lib_rechaza (langchain_ejemplo 0) st1
       = (Err falta_api_key, st1, []).
Proof.
  apply (cambiar_modo_loses_client_on_invalid_config lib_rechaza nat
           (langchain_ejemplo 0)
           {| config := config_local_sin_clave;
              instancia := Some (Some 0) |}).
  reflexivity.
Defined.

Lemma crear_chain_robusto_ignores_max_retries_witness :
  exists chain st1 evs,
    crear_chain_robusto lib_rechaza (langchain_ejemplo 0) salida_ejemplo
      {| config := config_api; instancia := None |}
      (template prompt_label) modelo_label 10 []
    = (Ok chain, st1, evs)
    /\ chain_max_retries chain = 3
    /\ llamadas (snd (invoke lib_rechaza chain vars_label None None)) <= 4.
Proof.
  do 3 eexists. split; [reflexivity |].
  eapply crear_chain_robusto_ignores_max_retries
    with (lc := langchain_ejemplo 0) (sal := salida_ejemplo)
         (st := {| config := config_api; instancia := None |})
         (plantilla := template prompt_label) (modelo := modelo_label)
         (max_retries := 10) (kwargs := []).
  reflexivity.
Defined.

Lemma retry_without_model_witness :
  invocar_llm_con_retry (T:=pyval) chain_none_luego 3 None None
  = (Devuelve (DeCadena pyval None), 1)
  /\ invocar_llm_con_retry (T:=pyval)
       (fun _ => Err (A:=option pystr) error_timeout) 3 None
       (Some (dict_label (u "n/a")))
     = (Falla (Agotado (3 + 1) (Some error_timeout)), 3 + 1).
Proof.
  split.
  - apply (proj1 (retry_without_model pystr pyval chain_none_luego None 3)).
    reflexivity.
  - apply (proj2 (retry_without_model pystr pyval
                    (fun _ => Err error_timeout)
                    (Some (dict_label (u "n/a"))) 3)
             (fun _ => error_timeout)).
    intros n Hn. reflexivity.
Defined.

Lemma extraer_variables_finds_placeholders_witness :
  (In (u "a") (_extraer_variables lib_rechaza
                 (plantilla_texto plantilla_repetida))
   <-> In (Campo (u "a")) plantilla_repetida)
  /\ NoDup (_extraer_variables lib_rechaza
              (plantilla_texto plantilla_repetida)).
Proof.
  apply (extraer_variables_finds_placeholders lib_rechaza plantilla_repetida
           (u "a")).
  vm_compute. reflexivity.
Defined.

Lemma chain_binds_format_instructions_witness :
  exists chain,
    crear_chain_estructurado_robusto salida_ejemplo (Some 0)
      plantilla_instrucciones modelo_label []
    = Ok chain
    /\ dict_get (u "format_instructions") (partial_variables (prompt chain))
       = Some (get_format_instructions salida_ejemplo modelo_label)
    /\ exists s, format (prompt chain) vars_label = Ok s.
Proof.
  eexists. split; [reflexivity |].
  apply (chain_binds_format_instructions nat pyval salida_ejemplo 0
           plantilla_instrucciones modelo_label [] vars_label).
  - reflexivity.
  - intros nombre [H | [H | [H | [H | []]]]]; try discriminate.
    + injection H as <-. right. vm_compute. discriminate.
    + injection H as <-. left. reflexivity.
Defined.

End Evaluaciones.
